(** * InterswitchPOSService: amount validation, references, receipts, listeners

    A shallow embedding of the service class of the Interswitch SDK wrapper
    (the TypeScript class [InterswitchPOSService]) and of the form screen's
    reference generator.

    JavaScript Numbers are IEEE 754 binary64 values.  They are modelled with
    the Standard Library's executable specification of binary floating point
    ([SpecFloat], instantiated at precision 53 and maximal exponent 1024), so
    that every arithmetic step of the source ([*], [/], [Math.round],
    [Math.floor], the comparisons) rounds exactly as the engine does. *)

From Stdlib Require Import ZArith Lia List String Ascii Bool.
From Stdlib Require Import SpecFloat DecimalString DecimalPos DecimalN.
From Stdlib Require PrimFloat FloatOps.
Import ListNotations.

Local Open Scope Z_scope.

(* ================================================================== *)
(** ** JavaScript values and Numbers *)
(* ================================================================== *)

Module JS.

(** binary64 *)
Definition prec : Z := 53.
Definition emax : Z := 1024.

Definition Number : Type := spec_float.

Definition NaN : Number := S754_nan.
Definition Infinity : Number := S754_infinity false.

(** The Number whose value is the integer [z] (exact when |z| < 2^53,
    correctly rounded otherwise). *)
Definition of_Z (z : Z) : Number := binary_normalize prec emax z 0 false.

Definition mul (x y : Number) : Number := SFmul prec emax x y.
Definition div (x y : Number) : Number := SFdiv prec emax x y.

(** Relational operators on Numbers; every comparison with NaN is false. *)
Definition ltb (x y : Number) : bool := SFltb x y.
Definition leb (x y : Number) : bool := SFleb x y.
Definition gtb (x y : Number) : bool := SFltb y x.
(** [x === y] and [x !== y] on Numbers: NaN differs from itself and the two
    zeros are equal. *)
Definition strict_eq (x y : Number) : bool := SFeqb x y.
Definition strict_neq (x y : Number) : bool := negb (SFeqb x y).

(** A decimal literal with [p] fractional digits, written [k / 10^p] with
    [k] its digits read as an integer: the Number nearest to that rational
    (ties to even).  For |k| < 2^53 and p <= 22 both [k] and [10^p] are
    exact Numbers, and the correctly rounded quotient is that nearest
    Number. *)
Definition decimal (k : Z) (p : nat) : Number :=
  div (of_Z k) (of_Z (10 ^ Z.of_nat p)).

(** The integer value of a Number that is finite and integral. *)
Definition integral_value (x : Number) : option Z :=
  match x with
  | S754_zero _ => Some 0
  | S754_finite s m e =>
      let n := if s then Z.neg m else Z.pos m in
      if 0 <=? e then Some (n * 2 ^ e)
      else if (n mod 2 ^ (- e)) =? 0 then Some (n / 2 ^ (- e)) else None
  | _ => None
  end.

(** [Math.round]: the integral Number closest to [x], ties towards
    +Infinity; [-0] for [-0.5 <= x < 0]; NaN, the infinities and the zeros
    are returned unchanged. *)
Definition Math_round (x : Number) : Number :=
  match x with
  | S754_finite s m e =>
      if 0 <=? e then x
      else
        let d := 2 ^ (- e) in
        let n := if s then Z.neg m else Z.pos m in
        let z := (2 * n + d) / (2 * d) in
        if z =? 0 then S754_zero s else of_Z z
  | _ => x
  end.

(** [Math.floor]: the greatest integral Number not above [x]. *)
Definition Math_floor (x : Number) : Number :=
  match x with
  | S754_finite s m e =>
      if 0 <=? e then x
      else
        let d := 2 ^ (- e) in
        let n := if s then Z.neg m else Z.pos m in
        let z := n / d in
        if z =? 0 then S754_zero s else of_Z z
  | _ => x
  end.

(** Language values, as far as [typeof] and truthiness tell them apart. *)
Inductive Value : Type :=
  | Undefined
  | Null
  | Boolean (b : bool)
  | Num (n : Number)
  | Str (s : string)
  | BigInt (z : Z)
  | Symbol
  | Object (callable : bool).

Definition typeof (v : Value) : string :=
  match v with
  | Undefined => "undefined"
  | Null => "object"
  | Boolean _ => "boolean"
  | Num _ => "number"
  | Str _ => "string"
  | BigInt _ => "bigint"
  | Symbol => "symbol"
  | Object callable => if callable then "function" else "object"
  end.

(** Truthiness of a string: every string but the empty one. *)
Definition truthy_string (s : string) : bool :=
  match s with
  | EmptyString => false
  | String _ _ => true
  end.

(** Truthiness of a Number: every Number but [+0], [-0] and NaN. *)
Definition truthy_number (n : Number) : bool :=
  match n with
  | S754_zero _ | S754_nan => false
  | _ => true
  end.

(** [ToBoolean] *)
Definition truthy (v : Value) : bool :=
  match v with
  | Undefined | Null => false
  | Boolean b => b
  | Num n => truthy_number n
  | Str s => truthy_string s
  | BigInt z => negb (z =? 0)
  | Symbol | Object _ => true
  end.

(** Decimal digits of a natural number, without leading zeros ("0" for 0). *)
Definition digits (n : N) : string := NilZero.string_of_uint (N.to_uint n).

(** [s] padded with zeros on the left up to [len] characters. *)
Fixpoint pad_zeros (fuel : nat) (len : nat) (s : string) : string :=
  match fuel with
  | O => s
  | S fuel' =>
      if Nat.ltb (String.length s) len then pad_zeros fuel' len (String "0" s)
      else s
  end.

Section Conversions.

(** Digit generation of [Number::toString]: the shortest decimal that reads
    back as the same Number, in plain or exponent form.  It is a parameter;
    the one case written out below is that of the safe integers. *)
Variable shortest_repr : Number -> string.

(** [Number::toString], radix 10, as used by template literals.  An integer
    of magnitude below 2^53 has every digit significant up to its trailing
    zeros, and the shortest digits padded with those zeros are its exact
    decimal digits; from 2^53 upward the shortest digits can be fewer than
    the exact ones (2^64 is written 18446744073709552000), and the text is
    left to [shortest_repr]. *)
Definition NumberToString (x : Number) : string :=
  match x with
  | S754_nan => "NaN"
  | S754_infinity false => "Infinity"
  | S754_infinity true => "-Infinity"
  | S754_zero _ => "0"
  | S754_finite s _ _ =>
      match integral_value x with
      | Some z =>
          if Z.abs z <? 2 ^ 53
          then (if s then "-" else "") ++ digits (Z.abs_N z)
          else shortest_repr x
      | None => shortest_repr x
      end
  end.

(** [x.toFixed(2)].  Not finite: as [Number::toString].  Otherwise the sign,
    then for |x| >= 10^21 the text of |x|, and below that the integer [n]
    with [n / 100] nearest to |x| (the larger one on a tie) written with two
    fractional digits. *)
Definition toFixed2 (x : Number) : string :=
  match x with
  | S754_zero _ => "0.00"
  | S754_finite s m e =>
      let num := (Z.pos m * 100) * 2 ^ (Z.max e 0) in
      let den := 2 ^ (Z.max (- e) 0) in
      (if s then "-" else "") ++
      (if 10 ^ 23 * den <=? num then NumberToString (S754_finite false m e)
       else
         let n := (2 * num + den) / (2 * den) in
         let m := pad_zeros 3 3 (digits (Z.to_N n)) in
         let k := String.length m in
         substring 0 (k - 2) m ++ "." ++ substring (k - 2) 2 m)
  | _ => NumberToString x
  end.

End Conversions.

End JS.

(* ================================================================== *)
(** ** The service *)
(* ================================================================== *)

Module Service.
Import JS.
Local Open Scope string_scope.

(** *** validatePaymentAmount *)

(** The result object [{ valid, error? }]. *)
Record Validation : Type := mkValidation {
  valid : bool;
  error : option string
}.

Definition ok : Validation := mkValidation true None.
Definition failed (msg : string) : Validation := mkValidation false (Some msg).

Definition err_number : string := "Amount must be a valid number".
Definition err_positive : string := "Amount must be greater than zero".
(** The two messages that contain the Naira sign are kept as UTF-8 bytes. *)
Definition err_minimum : string := "Minimum amount is ₦10".
Definition err_maximum : string := "Amount exceeds maximum limit (₦999,999.99)".
Definition err_decimals : string := "Amount cannot have more than 2 decimal places".

(** The literals of the function body. *)
Definition lit_0 : Number := S754_zero false.
Definition lit_10 : Number := of_Z 10.
Definition lit_100 : Number := of_Z 100.
Definition lit_999999_99 : Number := decimal 99999999 2.

(** [validatePaymentAmount(amount)].  The parameter is declared [number],
    but the first test of the body is about values that are not, so the
    argument is a language value.  Past that test [amount] is a Number. *)
Definition validatePaymentAmount (amount : Value) : Validation :=
  if negb (truthy amount) || negb (String.eqb (typeof amount) "number") then
    failed err_number
  else
    match amount with
    | Num a =>
        if leb a lit_0 then failed err_positive
        else if ltb a lit_10 then failed err_minimum
        else if gtb a lit_999999_99 then failed err_maximum
        else if strict_neq (Math_round (mul a lit_100)) (mul a lit_100) then
          failed err_decimals
        else ok
    | _ => failed err_number (* not reached: [typeof amount] is "number" *)
    end.

(** *** nairaToKobo / koboToNaira *)

Definition nairaToKobo (nairaAmount : Number) : Number :=
  Math_round (mul nairaAmount lit_100).

Definition koboToNaira (koboAmount : Number) : Number :=
  div koboAmount lit_100.

(** *** generateTransactionReference *)

Section References.

Variable shortest_repr : Number -> string.

Definition lit_1000000 : Number := of_Z 1000000.

(** [now] is the value of [Date.now()] and [random] the value of
    [Math.random()] at the call. *)
Definition generateTransactionReference (now random : Number) : string :=
  let timestamp := now in
  let randomNum := Math_floor (mul random lit_1000000) in
  "TXN_" ++ NumberToString shortest_repr timestamp ++ "_"
         ++ NumberToString shortest_repr randomNum.

End References.

(** *** Receipts *)

Inductive PaymentStatus : Type := completed | cancelled.

(** [PaymentResult], field for field. *)
Record PaymentResult : Type := mkPaymentResult {
  responseCode : string;
  responseMessage : string;
  isSuccessful : bool;
  transactionReference : string;
  rrn : string;
  amount : Number;
  cardType : string;
  transactionType : string;
  cardHolderName : string;
  cardExpiry : string;
  cardPan : string;
  aid : string;
  dateTime : string;
  txnDate : Number;
  authorizationCode : string;
  stan : string;
  authCode : string;
  transactionCurrencyType : string;
  timestamp : Number;
  status : PaymentStatus
}.

Inductive PrintItemType : Type := text | newline | image | separator.
Inductive ImageType : Type := resource | base64.

(** [PrintItem]; an optional property that is not written is [None].  The
    property [text] is the field [item_text], [text] being the name of an
    item type. *)
Record PrintItem : Type := mkPrintItem {
  type : PrintItemType;
  item_text : option string;
  isTitle : option bool;
  isBold : option bool;
  displayCenter : option bool;
  imageType : option ImageType;
  resourceName : option string;
  base64Data : option string
}.

(** The object literals of the two receipt builders. *)
Definition item (t : PrintItemType) : PrintItem :=
  mkPrintItem t None None None None None None None.

(** [{ type: 'text', text, isTitle: true, displayCenter: true, isBold: true }] *)
Definition title_item (s : string) : PrintItem :=
  mkPrintItem text (Some s) (Some true) (Some true) (Some true) None None None.
(** [{ type: 'text', text, displayCenter: true }] *)
Definition centered_item (s : string) : PrintItem :=
  mkPrintItem text (Some s) None None (Some true) None None None.
(** [{ type: 'text', text, isBold: true }] *)
Definition bold_item (s : string) : PrintItem :=
  mkPrintItem text (Some s) None (Some true) None None None None.
(** [{ type: 'text', text }] *)
Definition plain_item (s : string) : PrintItem :=
  mkPrintItem text (Some s) None None None None None None.
(** [{ type: 'text', text, isBold: true, displayCenter: true }] *)
Definition bold_centered_item (s : string) : PrintItem :=
  mkPrintItem text (Some s) None (Some true) (Some true) None None None.
(** [{ type: 'image', imageType: 'resource', resourceName: 'logo' }] *)
Definition logo_item : PrintItem :=
  mkPrintItem image None None None None (Some resource) (Some "logo") None.

(** The optional second argument of [createStandardReceipt]. *)
Record MerchantInfo : Type := mkMerchantInfo {
  name : option string;
  address : option string;
  phone : option string
}.

(** [merchantInfo?.field] *)
Definition opt_chain (merchantInfo : option MerchantInfo)
    (field : MerchantInfo -> option string) : option string :=
  match merchantInfo with
  | Some m => field m
  | None => None
  end.

(** Truthiness of a value that is a string or undefined. *)
Definition truthy_opt (o : option string) : bool :=
  match o with
  | Some s => truthy_string s
  | None => false
  end.

(** The string in a template literal or a [text] property; only read where
    the value was tested truthy. *)
Definition str (o : option string) : string :=
  match o with
  | Some s => s
  | None => "undefined"
  end.

(** [receipt.push(x)] *)
Definition push (receipt : list PrintItem) (x : PrintItem) : list PrintItem :=
  (receipt ++ [x])%list.

(** [if (c) { receipt.push(x); }] *)
Definition push_if (c : bool) (receipt : list PrintItem) (x : PrintItem)
  : list PrintItem :=
  if c then push receipt x else receipt.

Section Receipts.

Variable shortest_repr : Number -> string.

(** [Intl.NumberFormat('en-NG', { style: 'currency', currency: 'NGN', ... })]
    formats with the locale data of the platform; it is a parameter. *)
Variable formatCurrency : Number -> string.

Definition createStandardReceipt (transactionData : PaymentResult)
    (merchantInfo : option MerchantInfo) : list PrintItem :=
  let receipt := [] in
  (* Company logo *)
  let receipt := push receipt logo_item in
  (* Merchant header *)
  let receipt := push_if (truthy_opt (opt_chain merchantInfo name)) receipt
                   (title_item (str (opt_chain merchantInfo name))) in
  let receipt := push_if (truthy_opt (opt_chain merchantInfo address)) receipt
                   (centered_item (str (opt_chain merchantInfo address))) in
  let receipt := push_if (truthy_opt (opt_chain merchantInfo phone)) receipt
                   (centered_item ("Tel: " ++ str (opt_chain merchantInfo phone))) in
  let receipt := push receipt (item separator) in
  (* Transaction header *)
  let receipt := push receipt (title_item "PAYMENT RECEIPT") in
  let receipt := push receipt (item newline) in
  (* Transaction details *)
  let receipt := push receipt
                   (bold_item ("Amount: ₦" ++ toFixed2 shortest_repr (amount transactionData))) in
  let receipt := push_if (truthy_string (cardType transactionData)) receipt
                   (plain_item ("Card Type: " ++ cardType transactionData)) in
  let receipt := push_if (truthy_string (cardPan transactionData)) receipt
                   (plain_item ("PAN: " ++ cardPan transactionData)) in
  let receipt := push_if (truthy_string (rrn transactionData)) receipt
                   (plain_item ("RRN: " ++ rrn transactionData)) in
  let receipt := push receipt
                   (plain_item ("Reference: " ++ transactionReference transactionData)) in
  let receipt := push_if (truthy_string (dateTime transactionData)) receipt
                   (plain_item ("Date: " ++ dateTime transactionData)) in
  let receipt := push_if (truthy_string (authorizationCode transactionData)) receipt
                   (plain_item ("Auth Code: " ++ authorizationCode transactionData)) in
  let receipt := push_if (truthy_string (stan transactionData)) receipt
                   (plain_item ("STAN: " ++ stan transactionData)) in
  let receipt := push receipt (item separator) in
  (* Transaction status *)
  let statusText :=
    if isSuccessful transactionData then "APPROVED" else "DECLINED" in
  let receipt := push receipt (title_item statusText) in
  let receipt := push receipt (item newline) in
  let receipt := push receipt (item newline) in
  (* Footer *)
  let receipt := push receipt (centered_item "Thank you for your business!") in
  let receipt := push receipt (item newline) in
  let receipt := push receipt (centered_item "Keep this receipt for your records") in
  receipt.

Definition createSimpleReceipt (transactionData : PaymentResult)
  : list PrintItem :=
  [ title_item "PAYMENT RECEIPT";
    item separator;
    bold_item ("Amount: " ++ formatCurrency (amount transactionData));
    plain_item ("Reference: " ++ transactionReference transactionData);
    bold_centered_item
      ("Status: " ++ (if isSuccessful transactionData then "APPROVED" else "DECLINED"));
    item separator;
    centered_item "Thank you!" ].

End Receipts.

(** *** The standard receipt at run time *)

(** The types of the source are erased at run time, and the result object
    is delivered by the native module unchecked.  What a property of that
    object holds: nothing (the key is missing), null, a boolean, a Number
    or a string; nested maps and arrays are not modelled. *)
Inductive Field : Type :=
  | Missing
  | FNull
  | FBoolean (b : bool)
  | FNumber (n : Number)
  | FString (s : string).

Definition Payload : Type := list (string * Field).

(** [object.key] *)
Fixpoint read (object : Payload) (key : string) : Field :=
  match object with
  | [] => Missing
  | (k, v) :: rest => if String.eqb k key then v else read rest key
  end.

(** [ToBoolean] of a property. *)
Definition truthy_field (v : Field) : bool :=
  match v with
  | Missing | FNull => false
  | FBoolean b => b
  | FNumber n => truthy_number n
  | FString s => truthy_string s
  end.

(** A call returns normally or throws a TypeError. *)
Inductive Completion (A : Type) : Type :=
  | Normal (a : A)
  | TypeError.

Arguments Normal {A} a.
Arguments TypeError {A}.

Section Untyped.

Variable shortest_repr : Number -> string.

(** A property in a template literal. *)
Definition ToString (v : Field) : string :=
  match v with
  | Missing => "undefined"
  | FNull => "null"
  | FBoolean b => if b then "true" else "false"
  | FNumber n => NumberToString shortest_repr n
  | FString s => s
  end.

(** [v.toFixed(2)]: reading a property of undefined or of null throws, and
    a boolean or a string has no [toFixed] to call. *)
Definition call_toFixed2 (v : Field) : Completion string :=
  match v with
  | FNumber n => Normal (toFixed2 shortest_repr n)
  | _ => TypeError
  end.

(** [createStandardReceipt] as it runs: [transactionData] is whatever object
    the caller passes ([None] for undefined or null, of which no property
    can be read); the merchant object is written in checked code and keeps
    its type. *)
Definition createStandardReceipt_untyped (transactionData : option Payload)
    (merchantInfo : option MerchantInfo) : Completion (list PrintItem) :=
  let receipt := [] in
  let receipt := push receipt logo_item in
  let receipt := push_if (truthy_opt (opt_chain merchantInfo name)) receipt
                   (title_item (str (opt_chain merchantInfo name))) in
  let receipt := push_if (truthy_opt (opt_chain merchantInfo address)) receipt
                   (centered_item (str (opt_chain merchantInfo address))) in
  let receipt := push_if (truthy_opt (opt_chain merchantInfo phone)) receipt
                   (centered_item ("Tel: " ++ str (opt_chain merchantInfo phone))) in
  let receipt := push receipt (item separator) in
  let receipt := push receipt (title_item "PAYMENT RECEIPT") in
  let receipt := push receipt (item newline) in
  match transactionData with
  | None => TypeError
  | Some transactionData =>
      match call_toFixed2 (read transactionData "amount") with
      | TypeError => TypeError
      | Normal fixed =>
          let receipt := push receipt (bold_item ("Amount: ₦" ++ fixed)) in
          let receipt :=
            push_if (truthy_field (read transactionData "cardType")) receipt
              (plain_item ("Card Type: " ++ ToString (read transactionData "cardType"))) in
          let receipt :=
            push_if (truthy_field (read transactionData "cardPan")) receipt
              (plain_item ("PAN: " ++ ToString (read transactionData "cardPan"))) in
          let receipt :=
            push_if (truthy_field (read transactionData "rrn")) receipt
              (plain_item ("RRN: " ++ ToString (read transactionData "rrn"))) in
          let receipt :=
            push receipt
              (plain_item ("Reference: "
                           ++ ToString (read transactionData "transactionReference"))) in
          let receipt :=
            push_if (truthy_field (read transactionData "dateTime")) receipt
              (plain_item ("Date: " ++ ToString (read transactionData "dateTime"))) in
          let receipt :=
            push_if (truthy_field (read transactionData "authorizationCode")) receipt
              (plain_item ("Auth Code: "
                           ++ ToString (read transactionData "authorizationCode"))) in
          let receipt :=
            push_if (truthy_field (read transactionData "stan")) receipt
              (plain_item ("STAN: " ++ ToString (read transactionData "stan"))) in
          let receipt := push receipt (item separator) in
          let statusText :=
            if truthy_field (read transactionData "isSuccessful")
            then "APPROVED" else "DECLINED" in
          let receipt := push receipt (title_item statusText) in
          let receipt := push receipt (item newline) in
          let receipt := push receipt (item newline) in
          let receipt := push receipt (centered_item "Thank you for your business!") in
          let receipt := push receipt (item newline) in
          let receipt := push receipt (centered_item "Keep this receipt for your records") in
          Normal receipt
      end
  end.

End Untyped.

(** *** Event listeners *)

(** The four events of the native module. *)
Inductive EventType : Type :=
  | onPaymentCompleted | onPaymentCancelled | onPrintCompleted | onPrintError.

Definition EventType_eqb (a b : EventType) : bool :=
  match a, b with
  | onPaymentCompleted, onPaymentCompleted
  | onPaymentCancelled, onPaymentCancelled
  | onPrintCompleted, onPrintCompleted
  | onPrintError, onPrintError => true
  | _, _ => false
  end.

(** A callback is known by an identifier. *)
Definition Callback : Type := nat.

(** An [EmitterSubscription]: the registration of one listener for one
    event with the emitter. *)
Record EmitterSubscription : Type := mkSubscription {
  sub_id : nat;
  sub_event : EventType;
  sub_callback : Callback
}.

(** The service's private [NativeEventEmitter]: its active registrations in
    the order they were made, and the identifier of the next one. *)
Record NativeEventEmitter : Type := mkEmitter {
  registrations : list EmitterSubscription;
  next_id : nat
}.

(** [emitter.addListener(eventType, listener)] *)
Definition addListener (em : NativeEventEmitter) (ev : EventType) (cb : Callback)
  : NativeEventEmitter * EmitterSubscription :=
  let sub := mkSubscription (next_id em) ev cb in
  (mkEmitter (registrations em ++ [sub])%list (S (next_id em)), sub).

(** [subscription.remove()]: the registration is dropped; no effect when it
    is not active. *)
Definition remove (em : NativeEventEmitter) (sub : EmitterSubscription)
  : NativeEventEmitter :=
  mkEmitter
    (filter (fun s => negb (Nat.eqb (sub_id s) (sub_id sub))) (registrations em))
    (next_id em).

(** The mutable fields of the service object. *)
Record State : Type := mkState {
  eventEmitter : NativeEventEmitter;
  paymentCompletedListener : option EmitterSubscription;
  paymentCancelledListener : option EmitterSubscription;
  printCompletedListener : option EmitterSubscription;
  printErrorListener : option EmitterSubscription
}.

(** The state the constructor leaves. *)
Definition initial : State :=
  mkState (mkEmitter [] 0) None None None None.

(** The argument of [addEventListeners]: four optional callbacks. *)
Record Callbacks : Type := mkCallbacks {
  cb_onPaymentCompleted : option Callback;
  cb_onPaymentCancelled : option Callback;
  cb_onPrintCompleted : option Callback;
  cb_onPrintError : option Callback
}.

(** [if (this.slot) { this.slot.remove(); this.slot = null; }] leaves the
    emitter; the slot itself is set by the caller. *)
Definition remove_slot (em : NativeEventEmitter)
    (slot : option EmitterSubscription) : NativeEventEmitter :=
  match slot with
  | Some sub => remove em sub
  | None => em
  end.

Definition removeEventListeners (st : State) : State :=
  let em := eventEmitter st in
  let em := remove_slot em (paymentCompletedListener st) in
  let em := remove_slot em (paymentCancelledListener st) in
  let em := remove_slot em (printCompletedListener st) in
  let em := remove_slot em (printErrorListener st) in
  mkState em None None None None.

(** [if (callbacks.f) { this.slot = this.eventEmitter.addListener(ev, ...); }] *)
Definition add_slot (em : NativeEventEmitter) (ev : EventType)
    (cb : option Callback) (slot : option EmitterSubscription)
  : NativeEventEmitter * option EmitterSubscription :=
  match cb with
  | Some f => let '(em', sub) := addListener em ev f in (em', Some sub)
  | None => (em, slot)
  end.

Definition addEventListeners (callbacks : Callbacks) (st : State) : State :=
  (* Remove existing listeners first *)
  let st := removeEventListeners st in
  let '(em, s1) := add_slot (eventEmitter st) onPaymentCompleted
                     (cb_onPaymentCompleted callbacks) (paymentCompletedListener st) in
  let '(em, s2) := add_slot em onPaymentCancelled
                     (cb_onPaymentCancelled callbacks) (paymentCancelledListener st) in
  let '(em, s3) := add_slot em onPrintCompleted
                     (cb_onPrintCompleted callbacks) (printCompletedListener st) in
  let '(em, s4) := add_slot em onPrintError
                     (cb_onPrintError callbacks) (printErrorListener st) in
  mkState em s1 s2 s3 s4.

(** A call of one of the two methods, and a run of calls. *)
Inductive Call : Type :=
  | CallAdd (callbacks : Callbacks)
  | CallRemove.

Definition step (st : State) (c : Call) : State :=
  match c with
  | CallAdd callbacks => addEventListeners callbacks st
  | CallRemove => removeEventListeners st
  end.

Definition run (calls : list Call) (st : State) : State :=
  fold_left step calls st.

(** The number of active registrations for an event. *)
Definition active (ev : EventType) (st : State) : nat :=
  List.length
    (filter (fun s => EventType_eqb (sub_event s) ev)
       (registrations (eventEmitter st))).

End Service.

(* ================================================================== *)
(** ** The form screen *)
(* ================================================================== *)

Module FormScreen.
Import JS.
Local Open Scope string_scope.

Section References.

Variable shortest_repr : Number -> string.

(** The screen's own [generateTransactionReference]. *)
Definition generateTransactionReference (now random : Number) : string :=
  let timestamp := now in
  let randomNum := Math_floor (mul random (of_Z 1000000)) in
  "TXN_" ++ NumberToString shortest_repr timestamp ++ "_"
         ++ NumberToString shortest_repr randomNum.

End References.

End FormScreen.

(* ================================================================== *)
(** ** The service's calls into the native module *)
(* ================================================================== *)

Module Bridge.
Import JS Service.
Local Open Scope string_scope.

(** An object that crosses the native boundary or is caught: its
    properties in order, each key once. *)
Definition Props : Type := list (string * Value).

(** [o.key]; a property that is not there reads as undefined. *)
Fixpoint get (o : Props) (key : string) : Value :=
  match o with
  | [] => Undefined
  | (k, v) :: rest => if String.eqb k key then v else get rest key
  end.

(** Defining a property: the value of an existing key is replaced in
    place, a new key comes last. *)
Fixpoint set (o : Props) (key : string) (v : Value) : Props :=
  match o with
  | [] => [(key, v)]
  | (k, w) :: rest =>
      if String.eqb k key then (k, v) :: rest else (k, w) :: set rest key v
  end.

(** [{ ...o, ...src }]: the properties of [src] are defined on [o] one
    after the other. *)
Definition spread (o src : Props) : Props :=
  fold_left (fun acc kv => set acc (fst kv) (snd kv)) src o.

(** [a || b] *)
Definition or_else (a b : Value) : Value := if truthy a then a else b.

(** What a promise of the native module resolves with: an object, or null
    or undefined where native code hands back no value. *)
Inductive Resolved : Type :=
  | RNull
  | RUndefined
  | RObject (o : Props).

(** How a call of the native module settles; a rejection carries the error
    object that [catch] receives. *)
Inductive Outcome : Type :=
  | Resolves (result : Resolved)
  | Rejects (error : Props).

Inductive PaymentType : Type :=
  | Card | QR | USSD | Transfer | CNP | ThankYouCash | PayCode | Cash.

(** [PaymentData] *)
Record PaymentData : Type := mkPaymentData {
  amount : Number;
  paymentType : option PaymentType;
  reference : option string;
  remark : option string
}.

(** The object [paymentInfo] that [makePayment] hands to the native module. *)
Record PaymentInfo : Type := mkPaymentInfo {
  info_amount : Number;
  info_paymentType : PaymentType;
  info_reference : string;
  info_remark : string
}.

(** [LogoConfig] *)
Record LogoConfig : Type := mkLogoConfig {
  logo_type : ImageType;
  logo_resourceName : option string;
  logo_base64Data : option string
}.

(** The methods of [InterswitchPosModule] with their arguments. *)
Inductive NativeCall : Type :=
  | N_initializeTerminal (terminalConfig : Props)
  | N_setCompanyLogo (logoConfig : LogoConfig)
  | N_makePayment (paymentInfo : PaymentInfo)
  | N_printReceipt (printData : list PrintItem)
  | N_showSettings
  | N_callHome
  | N_getTerminalInfo.

(** The native module: how each call settles. *)
Definition NativeModule : Type := NativeCall -> Outcome.

(** The objects the methods of the service resolve with:
    [{ success, message?, data?, error? }]; a property that is not written
    reads as undefined. *)
Record Response : Type := mkResponse {
  success : bool;
  message : Value;
  data : Resolved;
  error : Value
}.

(** [new Error(message)] *)
Definition Error_new (msg : option string) : Props :=
  [("message", Str (match msg with Some s => s | None => "" end))].

(** [result.message] of a resolved value that is an object. *)
Definition message_of (o : Props) : Value := get o "message".

(** [result && result.success], as a condition. *)
Definition acknowledged (result : Resolved) : bool :=
  match result with
  | RObject o => truthy (get o "success")
  | _ => false
  end.

(** [return { success: false, error: error.message || fallback }], the body
    of every [catch] block of the service. *)
Definition caught (e : Props) (fallback : string) : Response :=
  mkResponse false Undefined RUndefined (or_else (get e "message") (Str fallback)).

Section Methods.

Variable native : NativeModule.
Variable shortest_repr : Number -> string.

(** The message of the TypeError that reading a property of null or
    undefined throws; its wording is the engine's. *)
Variable TypeError_message : string.

Definition thrown_TypeError : Props := [("message", Str TypeError_message)].

(** Every method returns its response and the calls it made to the native
    module. *)
Definition Run : Type := (Response * list NativeCall)%type.

Definition initializeTerminal (config : option Props) : Run :=
  let terminalConfig :=
    spread [("environment", Str "TEST"); ("appVersion", Str "1.0.0")]
      (match config with Some c => c | None => [] end) in
  let call := N_initializeTerminal terminalConfig in
  match native call with
  | Resolves result =>
      if acknowledged result then
        (mkResponse true
           (match result with RObject o => message_of o | _ => Undefined end)
           RUndefined Undefined, [call])
      else
        (mkResponse false Undefined RUndefined
           (Str "Terminal initialization failed"), [call])
  | Rejects e => (caught e "Unknown error occurred", [call])
  end.

Definition setCompanyLogo (logoConfig : LogoConfig) : Run :=
  let call := N_setCompanyLogo logoConfig in
  match native call with
  | Resolves result =>
      if acknowledged result then
        (mkResponse true
           (match result with RObject o => message_of o | _ => Undefined end)
           RUndefined Undefined, [call])
      else
        (mkResponse false Undefined RUndefined
           (Str "Failed to set company logo"), [call])
  | Rejects e => (caught e "Unknown error occurred", [call])
  end.

(** [now] and [random] are the values [Date.now()] and [Math.random()]
    give if a reference has to be generated. *)
Definition makePayment (now random : Number) (paymentData : PaymentData) : Run :=
  (* Validate required fields *)
  if negb (truthy_number (amount paymentData)) || leb (amount paymentData) lit_0 then
    (caught (Error_new (Some "Valid amount is required"))
       "Failed to initiate payment", [])
  else
    (* Validate amount *)
    let amountValidation := validatePaymentAmount (Num (amount paymentData)) in
    if negb (valid amountValidation) then
      (caught (Error_new (Service.error amountValidation))
         "Failed to initiate payment", [])
    else
      let paymentInfo :=
        mkPaymentInfo
          (amount paymentData)
          (match paymentType paymentData with Some t => t | None => Card end)
          (if truthy_opt (reference paymentData) then str (reference paymentData)
           else generateTransactionReference shortest_repr now random)
          (if truthy_opt (remark paymentData) then str (remark paymentData)
           else "Payment transaction") in
      let call := N_makePayment paymentInfo in
      match native call with
      | Resolves _ => (mkResponse true Undefined RUndefined Undefined, [call])
      | Rejects e => (caught e "Failed to initiate payment", [call])
      end.

(** [printData] is [None] for null or undefined. *)
Definition printReceipt (printData : option (list PrintItem)) : Run :=
  match printData with
  | None => (caught (Error_new (Some "Print data is required"))
               "Failed to print receipt", [])
  | Some items =>
      if Nat.eqb (List.length items) 0 then
        (caught (Error_new (Some "Print data is required"))
           "Failed to print receipt", [])
      else
        let call := N_printReceipt items in
        match native call with
        | Resolves result =>
            if acknowledged result then
              (mkResponse true Undefined result Undefined, [call])
            else
              (mkResponse false Undefined RUndefined
                 (or_else
                    (match result with RObject o => message_of o | _ => Undefined end)
                    (Str "Print failed")), [call])
        | Rejects e => (caught e "Failed to print receipt", [call])
        end
  end.

(** [return { success: true, message: result.message }]: reading [message]
    of null or undefined throws, and the [catch] block answers. *)
Definition read_message (result : Resolved) (fallback : string) : Response :=
  match result with
  | RObject o => mkResponse true (message_of o) RUndefined Undefined
  | _ => caught thrown_TypeError fallback
  end.

Definition showSettings : Run :=
  match native N_showSettings with
  | Resolves result => (read_message result "Failed to open settings", [N_showSettings])
  | Rejects e => (caught e "Failed to open settings", [N_showSettings])
  end.

Definition callHome : Run :=
  match native N_callHome with
  | Resolves result => (read_message result "Failed to sync with server", [N_callHome])
  | Rejects e => (caught e "Failed to sync with server", [N_callHome])
  end.

Definition getTerminalInfo : Run :=
  match native N_getTerminalInfo with
  | Resolves result =>
      (mkResponse true Undefined result Undefined, [N_getTerminalInfo])
  | Rejects e => (caught e "Failed to get terminal info", [N_getTerminalInfo])
  end.

(** [v === true] *)
Definition is_true (v : Value) : bool :=
  match v with
  | Boolean true => true
  | _ => false
  end.

(** [info.success && info.data?.isInitialized === true]; the method's own
    [catch] is never entered, [getTerminalInfo] catching every error. *)
Definition isTerminalReady : bool * list NativeCall :=
  let '(info, calls) := getTerminalInfo in
  (success info
   && is_true (match data info with
               | RObject o => get o "isInitialized"
               | _ => Undefined
               end),
   calls).

End Methods.

End Bridge.

(* ================================================================== *)
(** ** Sample data *)
(* ================================================================== *)

Module Samples.
Import JS Service.
Local Open Scope string_scope.

(** A parameter value for the digit generation that is never reached. *)
Definition no_repr (x : Number) : string := "".

(** An approved card payment with every optional field filled in. *)
Definition full_result : PaymentResult :=
  mkPaymentResult "00" "Approved" true "TXN_1703875200000_123456" "000123456789"
    (decimal 150050 2) "VISA" "Purchase" "ADA OBI" "12/27" "412345******1111"
    "A0000000031010" "2023-12-29 18:40:00" (of_Z 1703875200000) "AUTH01"
    "000045" "A1B2C3" "NGN" (of_Z 1703875200000) completed.

(** The merchant object the payment screen passes. *)
Definition full_merchant : MerchantInfo :=
  mkMerchantInfo (Some "Your Business Name")
    (Some "123 Business Street, Lagos") (Some "+234 123 456 7890").

(** A cancelled payment in which the terminal filled in nothing. *)
Definition bare_result : PaymentResult :=
  mkPaymentResult "" "" false "TXN_1_2" "" (S754_zero false) "" "" "" "" "" ""
    "" (S754_zero false) "" "" "" "" (S754_zero false) cancelled.

(** The fully populated payment, declined: [full_result] with the success
    flag off and every other field unchanged. *)
Definition declined_result : PaymentResult :=
  mkPaymentResult "00" "Approved" false "TXN_1703875200000_123456" "000123456789"
    (decimal 150050 2) "VISA" "Purchase" "ADA OBI" "12/27" "412345******1111"
    "A0000000031010" "2023-12-29 18:40:00" (of_Z 1703875200000) "AUTH01"
    "000045" "A1B2C3" "NGN" (of_Z 1703875200000) completed.

(** A currency format for the samples: the sign and two decimals, without
    the grouping of the locale. *)
Definition sample_currency (x : Number) : string := "₦" ++ toFixed2 no_repr x.

End Samples.

(* ================================================================== *)
(** ** Specification-side definitions *)
(* ================================================================== *)

Module Spec.
Import JS Service.
Local Open Scope string_scope.

Definition b2n (b : bool) : nat := if b then 1%nat else 0%nat.

(** The number of optional lines of a standard receipt whose field is
    populated: three merchant fields and six transaction fields. *)
Definition populated (td : PaymentResult) (mi : option MerchantInfo) : nat :=
  (b2n (truthy_opt (opt_chain mi name))
   + b2n (truthy_opt (opt_chain mi address))
   + b2n (truthy_opt (opt_chain mi phone))
   + b2n (truthy_string (cardType td))
   + b2n (truthy_string (cardPan td))
   + b2n (truthy_string (rrn td))
   + b2n (truthy_string (dateTime td))
   + b2n (truthy_string (authorizationCode td))
   + b2n (truthy_string (stan td)))%nat.

(** The items a standard receipt has whatever the result is. *)
Definition skeleton_length : nat := 13.

(** A labelled line that is present only for a populated field. *)
Definition optional_line (label value : string) : list PrintItem :=
  if truthy_string value then [plain_item (label ++ value)] else [].

Definition status_text (td : PaymentResult) : string :=
  if isSuccessful td then "APPROVED" else "DECLINED".

(** The last five items of every standard receipt. *)
Definition footer : list PrintItem :=
  [ item newline; item newline;
    centered_item "Thank you for your business!";
    item newline;
    centered_item "Keep this receipt for your records" ].

(** The amount line of a standard receipt. *)
Definition amount_text (shortest_repr : Number -> string) (td : PaymentResult)
  : string :=
  "Amount: ₦" ++ toFixed2 shortest_repr (amount td).

(** The merchant header: one line per populated field. *)
Definition header (mi : option MerchantInfo) : list PrintItem :=
  (if truthy_opt (opt_chain mi name)
   then [title_item (str (opt_chain mi name))] else [])
  ++ (if truthy_opt (opt_chain mi address)
      then [centered_item (str (opt_chain mi address))] else [])
  ++ (if truthy_opt (opt_chain mi phone)
      then [centered_item ("Tel: " ++ str (opt_chain mi phone))] else []).

(** The transaction details between the amount and the second separator. *)
Definition details (td : PaymentResult) : list PrintItem :=
  optional_line "Card Type: " (cardType td)
  ++ optional_line "PAN: " (cardPan td)
  ++ optional_line "RRN: " (rrn td)
  ++ [plain_item ("Reference: " ++ transactionReference td)]
  ++ optional_line "Date: " (dateTime td)
  ++ optional_line "Auth Code: " (authorizationCode td)
  ++ optional_line "STAN: " (stan td).

(** A field is populated when it is not the empty string. *)
Definition filled (s : string) : bool := negb (String.eqb s "").

Definition count_filled (fields : list string) : nat :=
  List.length (filter filled fields).

(** The text of a labelled line, present only for a populated field. *)
Definition line_if_filled (label value : string) : list (option string) :=
  if filled value then [Some (label ++ value)] else [].

(** The six optional fields of a result, in the order of their lines. *)
Definition optional_fields (td : PaymentResult) : list string :=
  [cardType td; cardPan td; rrn td; dateTime td; authorizationCode td; stan td].

(** The three fields of a merchant object; a field that is not there counts
    as empty. *)
Definition merchant_fields (mi : option MerchantInfo) : list string :=
  let field o := match o with Some s => s | None => "" end in
  match mi with
  | Some m => [field (name m); field (address m); field (phone m)]
  | None => []
  end.

(** The object a result is at run time: its twenty properties. *)
Definition payload_of (td : PaymentResult) : Payload :=
  [ ("responseCode", FString (responseCode td));
    ("responseMessage", FString (responseMessage td));
    ("isSuccessful", FBoolean (isSuccessful td));
    ("transactionReference", FString (transactionReference td));
    ("rrn", FString (rrn td));
    ("amount", FNumber (amount td));
    ("cardType", FString (cardType td));
    ("transactionType", FString (transactionType td));
    ("cardHolderName", FString (cardHolderName td));
    ("cardExpiry", FString (cardExpiry td));
    ("cardPan", FString (cardPan td));
    ("aid", FString (aid td));
    ("dateTime", FString (dateTime td));
    ("txnDate", FNumber (txnDate td));
    ("authorizationCode", FString (authorizationCode td));
    ("stan", FString (stan td));
    ("authCode", FString (authCode td));
    ("transactionCurrencyType", FString (transactionCurrencyType td));
    ("timestamp", FNumber (timestamp td));
    ("status", FString (match status td with
                        | completed => "completed"
                        | cancelled => "cancelled"
                        end)) ].

(** The kind and the text of each item of a receipt. *)
Definition lines (receipt : list PrintItem)
  : list (PrintItemType * option string) :=
  map (fun i => (type i, item_text i)) receipt.

(** The receipt of the fully populated sample in the order section 4.2 of
    the specification lists: after the status two blank lines, then the two
    closing lines next to each other. *)
Definition section_4_2_sample : list (PrintItemType * option string) :=
  [ (image, None);
    (text, Some "Your Business Name");
    (text, Some "123 Business Street, Lagos");
    (text, Some "Tel: +234 123 456 7890");
    (separator, None);
    (text, Some "PAYMENT RECEIPT");
    (newline, None);
    (text, Some "Amount: ₦1500.50");
    (text, Some "Card Type: VISA");
    (text, Some "PAN: 412345******1111");
    (text, Some "RRN: 000123456789");
    (text, Some "Reference: TXN_1703875200000_123456");
    (text, Some "Date: 2023-12-29 18:40:00");
    (text, Some "Auth Code: AUTH01");
    (text, Some "STAN: 000045");
    (separator, None);
    (text, Some "APPROVED");
    (newline, None);
    (newline, None);
    (text, Some "Thank you for your business!");
    (text, Some "Keep this receipt for your records") ].

(** The subscriptions held in the four slots of the service, in the order
    the slots are declared. *)
Definition slot_list (o : option EmitterSubscription) : list EmitterSubscription :=
  match o with
  | Some s => [s]
  | None => []
  end.

Definition held (st : State) : list EmitterSubscription :=
  slot_list (paymentCompletedListener st)
  ++ slot_list (paymentCancelledListener st)
  ++ slot_list (printCompletedListener st)
  ++ slot_list (printErrorListener st).

Definition slot_for (ev : EventType) (o : option EmitterSubscription) : Prop :=
  match o with
  | Some s => sub_event s = ev
  | None => True
  end.

(** The invariant of the listener fields: the emitter's active registrations
    are exactly the subscriptions held in the slots, each slot holding a
    registration for its own event. *)
Definition consistent (st : State) : Prop :=
  registrations (eventEmitter st) = held st
  /\ slot_for onPaymentCompleted (paymentCompletedListener st)
  /\ slot_for onPaymentCancelled (paymentCancelledListener st)
  /\ slot_for onPrintCompleted (printCompletedListener st)
  /\ slot_for onPrintError (printErrorListener st).

(** The callbacks of a call that are provided, with their events, in the
    order the method registers them. *)
Definition requested (callbacks : Callbacks) : list (EventType * Callback) :=
  let pick ev o := match o with Some f => [(ev, f)] | None => [] end in
  pick onPaymentCompleted (cb_onPaymentCompleted callbacks)
  ++ pick onPaymentCancelled (cb_onPaymentCancelled callbacks)
  ++ pick onPrintCompleted (cb_onPrintCompleted callbacks)
  ++ pick onPrintError (cb_onPrintError callbacks).

Definition same_id (s h : EmitterSubscription) : bool :=
  Nat.eqb (sub_id s) (sub_id h).

End Spec.

(* ================================================================== *)
(** ** Specification-side definitions for the native calls and the texts *)
(* ================================================================== *)

Module BridgeSpec.
Import JS Service Bridge.
Local Open Scope string_scope.

(** A response as its readers expect it: a success carries no error, a
    failure carries an error that [result.error || ...] keeps. *)
Definition well_formed (r : Response) : Prop :=
  if success r then error r = Undefined else truthy (error r) = true.

(** The request [makePayment] is to build for a payment: the amount as
    given, the card as the default payment type, a generated reference
    where none is given, and the default remark. *)
Definition request (shortest_repr : Number -> string) (now random : Number)
    (pd : PaymentData) : PaymentInfo :=
  mkPaymentInfo (amount pd)
    (match paymentType pd with Some t => t | None => Card end)
    (match reference pd with
     | Some (String c s) => String c s
     | _ => generateTransactionReference shortest_repr now random
     end)
    (match remark pd with
     | Some (String c s) => String c s
     | _ => "Payment transaction"
     end).

(** A native module that resolves every call with the same value. *)
Definition resolving (result : Resolved) : NativeModule :=
  fun _ => Resolves result.

End BridgeSpec.

Module TextSpec.

(** A string without the character [c]. *)
Fixpoint free_of (c : ascii) (s : string) : bool :=
  match s with
  | EmptyString => true
  | String a rest => negb (Ascii.eqb a c) && free_of c rest
  end.

End TextSpec.

(* ================================================================== *)
(** ** Binary64 rounding: definitions *)
(* ================================================================== *)

Module Binary64.
Import JS.

(** A Number is a binary64 value: a finite one has a canonical mantissa of
    at most 53 bits and an exponent between -1074 and 971. *)
Definition is_binary64 (x : Number) : bool := valid_binary prec emax x.

Definition one : Number := of_Z 1.

(** The integer part of the exact product of a positive Number and the
    integer [k] (0 for the other Numbers). *)
Definition scaled_floor (x : Number) (k : Z) : Z :=
  match x with
  | S754_finite false m e =>
      (Z.pos m * k * 2 ^ Z.max e 0) / 2 ^ Z.max (- e) 0
  | _ => 0
  end.

(** The mantissa of the literal 100: 100 * 2^46. *)
Definition c100 : positive := 7036874417766400.

(** Where the quotient [N / D] lies between two integers. *)
Definition place (N D : Z) : location :=
  if N mod D =? 0 then loc_Exact else loc_Inexact (2 * (N mod D) ?= D).

(** A record describes the rational [N / D]: its mantissa is the integer
    part, its two bits tell where the fractional part lies. *)
Definition describes (N D : Z) (mrs : shr_record) : Prop :=
  0 < D /\ 0 <= N /\ shr_m mrs = N / D /\ loc_of_shr_record mrs = place N D.

(** The last step of [binary_round_aux]. *)
Definition finish (s : bool) (m e : Z) : Number :=
  match m with
  | Z0 => S754_zero s
  | Zpos p => if e <=? emax - prec then S754_finite s p e else S754_infinity s
  | Zneg _ => S754_nan
  end.

End Binary64.

(* ================================================================== *)
(** ** Amount validation *)
(* ================================================================== *)

Module ValidationFacts.
Import JS Service.
Local Open Scope string_scope.

(** Past the first test the argument is a Number. *)
Lemma typeof_number (v : Value) :
  typeof v = "number" -> exists a, v = Num a.
Proof.
  destruct v as [ | | b | a | s | z | | c]; simpl; try discriminate.
  - intros _. now exists a.
  - destruct c; discriminate.
Qed.

(** Every value that is not a Number fails with the first message. *)
Lemma not_a_number_rejected (v : Value) :
  typeof v <> "number" -> validatePaymentAmount v = failed err_number.
Proof.
  intros Hty. unfold validatePaymentAmount.
  destruct (String.eqb (typeof v) "number") eqn:E.
  - apply String.eqb_eq in E. contradiction.
  - now rewrite orb_true_r.
Qed.

Lemma undefined_rejected : validatePaymentAmount Undefined = failed err_number.
Proof. reflexivity. Qed.

Lemma NaN_rejected : validatePaymentAmount (Num NaN) = failed err_number.
Proof. reflexivity. Qed.

(** A Number below zero is truthy. *)
Lemma negative_truthy (a : Number) : ltb a lit_0 = true -> truthy_number a = true.
Proof. destruct a as [s | s | | s m e]; simpl; trivial; discriminate. Qed.

Lemma ltb_leb (a b : Number) : ltb a b = true -> leb a b = true.
Proof.
  unfold ltb, leb, SFltb, SFleb.
  destruct (SFcompare a b) as [[ | | ] | ]; trivial; discriminate.
Qed.

(** Every Number below zero fails with the second message. *)
Lemma negative_rejected (a : Number) :
  ltb a lit_0 = true -> validatePaymentAmount (Num a) = failed err_positive.
Proof.
  intros Hlt. unfold validatePaymentAmount. simpl.
  rewrite (negative_truthy a Hlt). simpl.
  now rewrite (ltb_leb _ _ Hlt).
Qed.

(** The unfolding of the function on a truthy Number. *)
Lemma validate_number (a : Number) :
  truthy_number a = true ->
  validatePaymentAmount (Num a) =
    if leb a lit_0 then failed err_positive
    else if ltb a lit_10 then failed err_minimum
    else if gtb a lit_999999_99 then failed err_maximum
    else if strict_neq (Math_round (mul a lit_100)) (mul a lit_100)
         then failed err_decimals
         else ok.
Proof. intros Ht. unfold validatePaymentAmount. simpl. now rewrite Ht. Qed.

(** Every amount below the minimum is rejected, and so is every amount
    above the maximum. *)
Lemma below_minimum_invalid (a : Number) :
  ltb a lit_10 = true -> valid (validatePaymentAmount (Num a)) = false.
Proof.
  intros Hlt. destruct (truthy_number a) eqn:Ht.
  - rewrite (validate_number a Ht), Hlt. now destruct (leb a lit_0).
  - unfold validatePaymentAmount. simpl. now rewrite Ht.
Qed.

Lemma above_maximum_invalid (a : Number) :
  gtb a lit_999999_99 = true -> valid (validatePaymentAmount (Num a)) = false.
Proof.
  intros Hgt. destruct (truthy_number a) eqn:Ht.
  - rewrite (validate_number a Ht), Hgt.
    now destruct (leb a lit_0), (ltb a lit_10).
  - unfold validatePaymentAmount. simpl. now rewrite Ht.
Qed.

(** The sample points of the specification: 9.99 and 1,000,000.00 are
    rejected, 10.005 fails the precision test, 10 and 999,999.99 pass. *)
Lemma sample_points :
  validatePaymentAmount (Num (decimal 999 2)) = failed err_minimum
  /\ validatePaymentAmount (Num (decimal 100000000 2)) = failed err_maximum
  /\ validatePaymentAmount (Num (decimal 10005 3)) = failed err_decimals
  /\ validatePaymentAmount (Num (decimal 1000 2)) = ok
  /\ validatePaymentAmount (Num (decimal 99999999 2)) = ok.
Proof. repeat split; vm_compute; reflexivity. Qed.

(** The precision message is returned exactly when the four earlier tests
    pass and the rounded product differs from the product, both computed in
    binary64. *)
Lemma decimals_error_iff (a : Number) :
  validatePaymentAmount (Num a) = failed err_decimals <->
  (truthy_number a = true /\ leb a lit_0 = false /\ ltb a lit_10 = false
   /\ gtb a lit_999999_99 = false
   /\ strict_neq (Math_round (mul a lit_100)) (mul a lit_100) = true).
Proof.
  destruct (truthy_number a) eqn:Ht.
  - rewrite (validate_number a Ht).
    destruct (leb a lit_0), (ltb a lit_10), (gtb a lit_999999_99),
      (strict_neq (Math_round (mul a lit_100)) (mul a lit_100));
      split; intros H; try discriminate H; try tauto;
      destruct H as (_ & H1 & H2 & H3 & H4); discriminate.
  - unfold validatePaymentAmount. simpl. rewrite Ht. simpl.
    split; intros H; [discriminate H | destruct H as (H & _); discriminate H].
Qed.

(** C1.  The amount 10.03 has two decimal digits and lies between the
    minimum 10 and the maximum 999,999.99, yet [validatePaymentAmount]
    answers [valid: false] for it: the product 10.03 * 100 is
    1002.9999999999999 in binary64 and differs from its rounding 1003. *)
Theorem validatePaymentAmount_rejects_10_03 :
  let a := decimal 1003 2 in
  leb lit_10 a = true
  /\ leb a lit_999999_99 = true
  /\ mul a lit_100 = S754_finite false 8822481301274623 (-43)
  /\ Math_round (mul a lit_100) = of_Z 1003
  /\ valid (validatePaymentAmount (Num a)) = false.
Proof. repeat split; vm_compute; reflexivity. Qed.

(** C2.  The precision test compares two binary64 values: for 19.99, an
    amount with exactly two decimal digits, the product 19.99 * 100 is
    1998.9999999999998, its rounding is 1999, and the function fails with
    the message about more than two decimal places. *)
Theorem precision_test_rejects_19_99 :
  let a := decimal 1999 2 in
  mul a lit_100 = S754_finite false 8791694975696895 (-42)
  /\ Math_round (mul a lit_100) = of_Z 1999
  /\ strict_neq (Math_round (mul a lit_100)) (mul a lit_100) = true
  /\ validatePaymentAmount (Num a) = failed err_decimals.
Proof. repeat split; vm_compute; reflexivity. Qed.

(** C3.  For the amount 0 (and for -0) the function fails with "Amount must
    be a valid number": zero is falsy, so the first test catches it and the
    test [amount <= 0] with its message is not reached. *)
Theorem zero_reported_as_not_a_number :
  validatePaymentAmount (Num (S754_zero false)) = failed err_number
  /\ validatePaymentAmount (Num (S754_zero true)) = failed err_number
  /\ failed err_number <> failed err_positive.
Proof. repeat split; vm_compute; try reflexivity. discriminate. Qed.

End ValidationFacts.

(* ================================================================== *)
(** ** Receipts *)
(* ================================================================== *)

Module ReceiptFacts.
Import JS Service Spec Samples.
Local Open Scope string_scope.

Section Standard.

Variable shortest_repr : Number -> string.

Local Abbreviation receipt := (createStandardReceipt shortest_repr).

Local Abbreviation amount_text := (Spec.amount_text shortest_repr).

(** The pushes of [createStandardReceipt], read as one concatenation. *)
Lemma receipt_shape (td : PaymentResult) (mi : option MerchantInfo) :
  receipt td mi =
    ([logo_item] ++ header mi
     ++ [item separator; title_item "PAYMENT RECEIPT"; item newline;
         bold_item (amount_text td)]
     ++ details td
     ++ [item separator; title_item (status_text td)] ++ footer)%list.
Proof.
  unfold createStandardReceipt, header, details, optional_line, push_if, push,
    amount_text, status_text, footer.
  destruct (truthy_opt (opt_chain mi name)),
    (truthy_opt (opt_chain mi address)),
    (truthy_opt (opt_chain mi phone)),
    (truthy_string (cardType td)),
    (truthy_string (cardPan td)),
    (truthy_string (rrn td)),
    (truthy_string (dateTime td)),
    (truthy_string (authorizationCode td)),
    (truthy_string (stan td)); reflexivity.
Qed.

Lemma header_length (mi : option MerchantInfo) :
  List.length (header mi) =
    (b2n (truthy_opt (opt_chain mi name))
     + b2n (truthy_opt (opt_chain mi address))
     + b2n (truthy_opt (opt_chain mi phone)))%nat.
Proof.
  unfold header.
  destruct (truthy_opt (opt_chain mi name)),
    (truthy_opt (opt_chain mi address)),
    (truthy_opt (opt_chain mi phone)); reflexivity.
Qed.

Lemma details_length (td : PaymentResult) :
  List.length (details td) =
    (1 + (b2n (truthy_string (cardType td))
          + b2n (truthy_string (cardPan td))
          + b2n (truthy_string (rrn td))
          + b2n (truthy_string (dateTime td))
          + b2n (truthy_string (authorizationCode td))
          + b2n (truthy_string (stan td))))%nat.
Proof.
  unfold details, optional_line.
  destruct (truthy_string (cardType td)),
    (truthy_string (cardPan td)),
    (truthy_string (rrn td)),
    (truthy_string (dateTime td)),
    (truthy_string (authorizationCode td)),
    (truthy_string (stan td)); reflexivity.
Qed.

(** The length of every standard receipt: the thirteen fixed items and one
    item per populated optional field. *)
Lemma receipt_length (td : PaymentResult) (mi : option MerchantInfo) :
  List.length (receipt td mi) = (skeleton_length + populated td mi)%nat.
Proof.
  rewrite receipt_shape. repeat rewrite length_app.
  rewrite header_length, details_length.
  unfold populated, skeleton_length, footer. simpl List.length. lia.
Qed.

Lemma filled_truthy (s : string) : truthy_string s = filled s.
Proof. destruct s; reflexivity. Qed.

Lemma count_filled_cons (s : string) (l : list string) :
  count_filled (s :: l) = (b2n (truthy_string s) + count_filled l)%nat.
Proof. destruct s; reflexivity. Qed.

(** The number of populated optional fields, counted on the fields
    themselves. *)
Lemma populated_count (td : PaymentResult) (mi : option MerchantInfo) :
  populated td mi = count_filled (merchant_fields mi ++ optional_fields td).
Proof.
  unfold populated, optional_fields, merchant_fields.
  destruct mi as [[[n | ] [a | ] [p | ]] | ];
    cbn [opt_chain truthy_opt name address phone app];
    repeat rewrite count_filled_cons;
    change (count_filled []) with 0%nat;
    cbn [truthy_string b2n]; lia.
Qed.

(** On the object of a result, with or without further properties, the
    function as it runs returns normally, and returns the receipt of the
    typed function. *)
Lemma untyped_agrees (td : PaymentResult) (extra : Payload)
    (mi : option MerchantInfo) :
  createStandardReceipt_untyped shortest_repr (Some (payload_of td ++ extra)%list) mi
  = Normal (receipt td mi).
Proof. reflexivity. Qed.

(** An object without an amount makes the function throw, whatever else it
    holds. *)
Lemma untyped_throws_without_amount (p : Payload) (mi : option MerchantInfo) :
  read p "amount" = Missing ->
  createStandardReceipt_untyped shortest_repr (Some p) mi = TypeError.
Proof.
  intros H. unfold createStandardReceipt_untyped. rewrite H. reflexivity.
Qed.

Lemma untyped_throws_on_undefined (mi : option MerchantInfo) :
  createStandardReceipt_untyped shortest_repr None mi = TypeError.
Proof. reflexivity. Qed.

(** X4.  [createStandardReceipt], run on any object, returns normally
    exactly when the [amount] of the object is a Number; on every other
    object it throws a TypeError. *)
Theorem untyped_normal_iff (p : Payload) (mi : option MerchantInfo) :
  (exists r, createStandardReceipt_untyped shortest_repr (Some p) mi = Normal r)
  <-> (exists n, read p "amount" = FNumber n).
Proof.
  unfold createStandardReceipt_untyped.
  destruct (read p "amount") as [ | | b | n | s]; cbn [call_toFixed2];
    split; intros [x H]; try discriminate H.
  - now exists n.
  - eexists. reflexivity.
Qed.

(** C4 as amended.  For a result whose six optional transaction fields are
    populated and a merchant whose name, address and phone are populated
    (none of the nine strings is empty), the receipt has 22 items.  Read
    property by property they are: the logo image; the merchant name
    (titled, bold, centered); the address and the phone after "Tel: " (both
    centered); a separator; "PAYMENT RECEIPT" (titled, bold, centered); a
    blank line; the amount in bold; the card type, PAN, RRN, reference,
    date, authorization code and STAN as plain lines; a separator; the
    status (titled, bold, centered); two blank lines; the thank-you line
    (centered); one blank line; the reminder line (centered).  For every
    result and merchant the length is 13 plus the number of populated
    optional fields. *)
Theorem full_receipt_order
    (td : PaymentResult) (mi : MerchantInfo) (n a p : string) :
  name mi = Some n -> address mi = Some a -> phone mi = Some p ->
  forallb filled (n :: a :: p :: optional_fields td) = true ->
  map type (receipt td (Some mi))
  = [ image; text; text; text; separator; text; newline;
      text; text; text; text; text; text; text; text;
      separator; text; newline; newline; text; newline; text ]
  /\ map item_text (receipt td (Some mi))
     = [ None; Some n; Some a; Some ("Tel: " ++ p); None;
         Some "PAYMENT RECEIPT"; None;
         Some ("Amount: ₦" ++ toFixed2 shortest_repr (amount td));
         Some ("Card Type: " ++ cardType td);
         Some ("PAN: " ++ cardPan td);
         Some ("RRN: " ++ rrn td);
         Some ("Reference: " ++ transactionReference td);
         Some ("Date: " ++ dateTime td);
         Some ("Auth Code: " ++ authorizationCode td);
         Some ("STAN: " ++ stan td);
         None;
         Some (if isSuccessful td then "APPROVED" else "DECLINED");
         None; None;
         Some "Thank you for your business!";
         None;
         Some "Keep this receipt for your records" ]
  /\ map isTitle (receipt td (Some mi))
     = [ None; Some true; None; None; None; Some true; None;
         None; None; None; None; None; None; None; None;
         None; Some true; None; None; None; None; None ]
  /\ map isBold (receipt td (Some mi))
     = [ None; Some true; None; None; None; Some true; None;
         Some true; None; None; None; None; None; None; None;
         None; Some true; None; None; None; None; None ]
  /\ map displayCenter (receipt td (Some mi))
     = [ None; Some true; Some true; Some true; None; Some true; None;
         None; None; None; None; None; None; None; None;
         None; Some true; None; None; Some true; None; Some true ]
  /\ map imageType (receipt td (Some mi)) = Some resource :: repeat None 21
  /\ map resourceName (receipt td (Some mi)) = Some "logo" :: repeat None 21
  /\ map base64Data (receipt td (Some mi)) = repeat None 22
  /\ List.length (receipt td (Some mi)) = (13 + 9)%nat
  /\ forall td' mi',
       List.length (receipt td' mi')
       = (13 + count_filled (merchant_fields mi' ++ optional_fields td'))%nat.
Proof.
  intros Hn Ha Hp Hall.
  assert (Hlen : forall td' mi',
             List.length (receipt td' mi')
             = (13 + count_filled (merchant_fields mi' ++ optional_fields td'))%nat).
  { intros td' mi'. rewrite receipt_length, populated_count. reflexivity. }
  destruct mi as [mn ma mp]. simpl in Hn, Ha, Hp. subst mn ma mp.
  destruct td as [rc rm ok ref r am ct tt hn ex pan ai dt txd au st ac cur ts sta].
  unfold optional_fields in Hall. cbn [cardType cardPan rrn dateTime
    authorizationCode stan] in Hall.
  destruct n as [ | c1 n]; [discriminate Hall | ].
  destruct a as [ | c2 a]; [discriminate Hall | ].
  destruct p as [ | c3 p]; [discriminate Hall | ].
  destruct ct as [ | c4 ct]; [discriminate Hall | ].
  destruct pan as [ | c5 pan]; [discriminate Hall | ].
  destruct r as [ | c6 r]; [discriminate Hall | ].
  destruct dt as [ | c7 dt]; [discriminate Hall | ].
  destruct au as [ | c8 au]; [discriminate Hall | ].
  destruct st as [ | c9 st]; [discriminate Hall | ].
  repeat split; try reflexivity. exact Hlen.
Qed.

(** C5.  The function as it runs returns normally on the object of every
    result (with or without further properties), for every merchant
    argument, and what it returns is the receipt computed here.  Without
    merchant information that receipt is the logo followed at once by the
    separator, the title, a blank line and the amount; then the reference
    line with, before it and after it, one line for each populated optional
    field and nothing for an empty one; then the separator, the status, two
    blank lines, the thank-you line, a blank line and the reminder line.
    Its length is 13 plus the number of populated transaction fields, hence
    between 13 and 19.  A merchant object without fields, or with empty
    ones, gives the same receipt. *)
Theorem receipt_without_merchant (td : PaymentResult) (extra : Payload) :
  (forall mi,
     createStandardReceipt_untyped shortest_repr
       (Some (payload_of td ++ extra)%list) mi
     = Normal (receipt td mi))
  /\ map type (receipt td None)
     = ([image; separator; text; newline]
        ++ repeat text (2 + count_filled (optional_fields td))
        ++ [separator; text; newline; newline; text; newline; text])%list
  /\ map item_text (receipt td None)
     = ([ None; None; Some "PAYMENT RECEIPT"; None;
          Some ("Amount: ₦" ++ toFixed2 shortest_repr (amount td))%string ]
        ++ line_if_filled "Card Type: " (cardType td)
        ++ line_if_filled "PAN: " (cardPan td)
        ++ line_if_filled "RRN: " (rrn td)
        ++ [ Some ("Reference: " ++ transactionReference td)%string ]
        ++ line_if_filled "Date: " (dateTime td)
        ++ line_if_filled "Auth Code: " (authorizationCode td)
        ++ line_if_filled "STAN: " (stan td)
        ++ [ None; Some (if isSuccessful td then "APPROVED" else "DECLINED");
             None; None; Some "Thank you for your business!"; None;
             Some "Keep this receipt for your records" ])%list
  /\ map isTitle (receipt td None)
     = ([None; None; Some true; None]
        ++ repeat None (2 + count_filled (optional_fields td))
        ++ [None; Some true; None; None; None; None; None])%list
  /\ map isBold (receipt td None)
     = ([None; None; Some true; None; Some true]
        ++ repeat None (1 + count_filled (optional_fields td))
        ++ [None; Some true; None; None; None; None; None])%list
  /\ map displayCenter (receipt td None)
     = ([None; None; Some true; None]
        ++ repeat None (2 + count_filled (optional_fields td))
        ++ [None; Some true; None; None; Some true; None; Some true])%list
  /\ List.length (receipt td None)
     = (13 + count_filled (optional_fields td))%nat
  /\ (13 <= List.length (receipt td None) <= 19)%nat
  /\ receipt td (Some (mkMerchantInfo None None None)) = receipt td None
  /\ receipt td (Some (mkMerchantInfo (Some "") (Some "") (Some "")))
     = receipt td None.
Proof.
  split; [intros mi; apply untyped_agrees | ].
  destruct td as [rc rm ok ref r am ct tt hn ex pan ai dt txd au st ac cur ts sta].
  unfold optional_fields.
  cbn [cardType cardPan rrn dateTime authorizationCode stan amount
       transactionReference isSuccessful].
  destruct ct as [ | c4 ct], pan as [ | c5 pan], r as [ | c6 r],
    dt as [ | c7 dt], au as [ | c8 au], st as [ | c9 st];
    (repeat split; try reflexivity; cbn; lia).
Qed.

(** C6.  Every standard receipt ends with the separator, the status item and
    the five closing items; the status item is a text item titled, bold and
    centered, whose text is "APPROVED" for a successful result and
    "DECLINED" otherwise. *)
Theorem status_line (td : PaymentResult) (mi : option MerchantInfo) :
  exists before st,
    receipt td mi = (before ++ [item separator; st] ++ footer)%list
    /\ nth_error (receipt td mi) (List.length (receipt td mi) - 6) = Some st
    /\ type st = text
    /\ item_text st = Some (if isSuccessful td then "APPROVED" else "DECLINED")
    /\ isTitle st = Some true
    /\ isBold st = Some true
    /\ displayCenter st = Some true.
Proof.
  exists ([logo_item] ++ header mi
          ++ [item separator; title_item "PAYMENT RECEIPT"; item newline;
              bold_item (amount_text td)]
          ++ details td)%list.
  exists (title_item (status_text td)).
  assert (Hshape :
    receipt td mi =
      ((([logo_item] ++ header mi
         ++ [item separator; title_item "PAYMENT RECEIPT"; item newline;
             bold_item (amount_text td)]
         ++ details td) ++ [item separator])
       ++ title_item (status_text td) :: footer)%list).
  { rewrite receipt_shape. repeat rewrite <- app_assoc. reflexivity. }
  split; [ | split ].
  - rewrite receipt_shape. repeat rewrite <- app_assoc. reflexivity.
  - rewrite Hshape at 1.
    rewrite nth_error_app2.
    + replace (List.length (receipt td mi) - 6
               - List.length ((([logo_item] ++ header mi
                   ++ [item separator; title_item "PAYMENT RECEIPT"; item newline;
                       bold_item (amount_text td)]
                   ++ details td) ++ [item separator])%list))%nat with 0%nat.
      * reflexivity.
      * rewrite Hshape. repeat rewrite length_app. simpl List.length. lia.
    + rewrite Hshape. repeat rewrite length_app. simpl List.length. lia.
  - unfold status_text. repeat split.
Qed.

End Standard.

(** The receipt of the fully populated sample, as the payment screen asks
    for it, item by item. *)
Lemma full_receipt_order_witness :
  map type (createStandardReceipt no_repr full_result (Some full_merchant))
  = [ image; text; text; text; separator; text; newline;
      text; text; text; text; text; text; text; text;
      separator; text; newline; newline; text; newline; text ]
  /\ map item_text (createStandardReceipt no_repr full_result (Some full_merchant))
     = [ None; Some "Your Business Name"; Some "123 Business Street, Lagos";
         Some "Tel: +234 123 456 7890"; None;
         Some "PAYMENT RECEIPT"; None;
         Some "Amount: ₦1500.50";
         Some "Card Type: VISA";
         Some "PAN: 412345******1111";
         Some "RRN: 000123456789";
         Some "Reference: TXN_1703875200000_123456";
         Some "Date: 2023-12-29 18:40:00";
         Some "Auth Code: AUTH01";
         Some "STAN: 000045";
         None;
         Some "APPROVED";
         None; None;
         Some "Thank you for your business!";
         None;
         Some "Keep this receipt for your records" ]
  /\ map isTitle (createStandardReceipt no_repr full_result (Some full_merchant))
     = [ None; Some true; None; None; None; Some true; None;
         None; None; None; None; None; None; None; None;
         None; Some true; None; None; None; None; None ]
  /\ map isBold (createStandardReceipt no_repr full_result (Some full_merchant))
     = [ None; Some true; None; None; None; Some true; None;
         Some true; None; None; None; None; None; None; None;
         None; Some true; None; None; None; None; None ]
  /\ map displayCenter (createStandardReceipt no_repr full_result (Some full_merchant))
     = [ None; Some true; Some true; Some true; None; Some true; None;
         None; None; None; None; None; None; None; None;
         None; Some true; None; None; Some true; None; Some true ]
  /\ map imageType (createStandardReceipt no_repr full_result (Some full_merchant))
     = Some resource :: repeat None 21
  /\ map resourceName (createStandardReceipt no_repr full_result (Some full_merchant))
     = Some "logo" :: repeat None 21
  /\ map base64Data (createStandardReceipt no_repr full_result (Some full_merchant))
     = repeat None 22
  /\ List.length (createStandardReceipt no_repr full_result (Some full_merchant))
     = 22%nat
  /\ forall td' mi',
       List.length (createStandardReceipt no_repr td' mi')
       = (13 + count_filled (merchant_fields mi' ++ optional_fields td'))%nat.
Proof.
  apply (full_receipt_order no_repr full_result full_merchant
           "Your Business Name" "123 Business Street, Lagos" "+234 123 456 7890");
    reflexivity.
Defined.

(** C4, as stated, fails.  The kinds and texts of the sample receipt are not
    the sequence of section 4.2, which has the two closing lines next to
    each other (21 items): the code's receipt has the same first twenty
    items, then a blank line, then the reminder line (22 items). *)
Lemma section_4_2_order_refuted :
  lines (createStandardReceipt no_repr full_result (Some full_merchant))
    <> section_4_2_sample
  /\ firstn 20 (lines (createStandardReceipt no_repr full_result (Some full_merchant)))
     = firstn 20 section_4_2_sample
  /\ nth_error (lines (createStandardReceipt no_repr full_result (Some full_merchant))) 20
     = Some (newline, None)
  /\ skipn 21 (lines (createStandardReceipt no_repr full_result (Some full_merchant)))
     = skipn 20 section_4_2_sample
  /\ List.length section_4_2_sample = 21%nat
  /\ List.length (createStandardReceipt no_repr full_result (Some full_merchant))
     = 22%nat.
Proof.
  split; [ | repeat split; vm_compute; reflexivity ].
  intros H. apply (f_equal (@List.length _)) in H.
  vm_compute in H. discriminate H.
Qed.

(** C8 as amended.  For every result the simple receipt has exactly seven
    items: the title (titled, bold, centered), a separator, the amount in
    bold, the reference, the status (bold, centered), a separator and the
    centered thank-you line.  The number of items, their kinds and their
    flags are the same for every result; the amount and the reference are
    written into their lines, and the status text is one of two texts,
    chosen by the success flag. *)
Theorem simple_receipt_seven_items
    (formatCurrency : Number -> string) (td : PaymentResult) :
  List.length (createSimpleReceipt formatCurrency td) = 7%nat
  /\ map type (createSimpleReceipt formatCurrency td)
     = [text; separator; text; text; text; separator; text]
  /\ map item_text (createSimpleReceipt formatCurrency td)
     = [ Some "PAYMENT RECEIPT";
         None;
         Some ("Amount: " ++ formatCurrency (amount td));
         Some ("Reference: " ++ transactionReference td);
         Some (if isSuccessful td then "Status: APPROVED" else "Status: DECLINED");
         None;
         Some "Thank you!" ]
  /\ map isTitle (createSimpleReceipt formatCurrency td)
     = [Some true; None; None; None; None; None; None]
  /\ map isBold (createSimpleReceipt formatCurrency td)
     = [Some true; None; Some true; None; Some true; None; None]
  /\ map displayCenter (createSimpleReceipt formatCurrency td)
     = [Some true; None; None; None; Some true; None; Some true]
  /\ map imageType (createSimpleReceipt formatCurrency td) = repeat None 7
  /\ map resourceName (createSimpleReceipt formatCurrency td) = repeat None 7
  /\ map base64Data (createSimpleReceipt formatCurrency td) = repeat None 7.
Proof. destruct (isSuccessful td) eqn:E; cbn; rewrite E; repeat split. Qed.

(** C8, as stated, fails: the function has a conditional on the content of
    the result.  Two results that differ in the success flag only get
    receipts that differ in the status line, "Status: APPROVED" for one and
    "Status: DECLINED" for the other. *)
Lemma simple_receipt_branches_on_status :
  lines (createSimpleReceipt sample_currency full_result)
  = [ (text, Some "PAYMENT RECEIPT"); (separator, None);
      (text, Some "Amount: ₦1500.50");
      (text, Some "Reference: TXN_1703875200000_123456");
      (text, Some "Status: APPROVED");
      (separator, None); (text, Some "Thank you!") ]
  /\ lines (createSimpleReceipt sample_currency declined_result)
     = [ (text, Some "PAYMENT RECEIPT"); (separator, None);
         (text, Some "Amount: ₦1500.50");
         (text, Some "Reference: TXN_1703875200000_123456");
         (text, Some "Status: DECLINED");
         (separator, None); (text, Some "Thank you!") ]
  /\ createSimpleReceipt sample_currency full_result
     <> createSimpleReceipt sample_currency declined_result.
Proof.
  split; [vm_compute; reflexivity | ].
  split; [vm_compute; reflexivity | ].
  intros H. apply (f_equal lines) in H. vm_compute in H. discriminate H.
Qed.

End ReceiptFacts.

(* ================================================================== *)
(** ** Event listeners *)
(* ================================================================== *)

Module ListenerFacts.
Import Service Spec.

(** Teardown removes the held subscriptions one after the other. *)
Lemma remove_as_fold (st : State) :
  eventEmitter (removeEventListeners st)
  = fold_left remove (held st) (eventEmitter st).
Proof.
  unfold removeEventListeners, held.
  destruct (paymentCompletedListener st), (paymentCancelledListener st),
    (printCompletedListener st), (printErrorListener st); reflexivity.
Qed.

Lemma filter_twice {A : Type} (f g : A -> bool) (l : list A) :
  filter g (filter f l) = filter (fun x => f x && g x) l.
Proof.
  induction l as [ | x l IH]; simpl; trivial.
  destruct (f x); simpl; [ destruct (g x) | ]; now rewrite IH.
Qed.

Lemma fold_remove (l : list EmitterSubscription) :
  forall em,
    registrations (fold_left remove l em)
    = filter (fun s => negb (existsb (same_id s) l)) (registrations em)
    /\ next_id (fold_left remove l em) = next_id em.
Proof.
  induction l as [ | h l IH]; intros em; simpl.
  - split; trivial. induction (registrations em) as [ | x r IHr]; simpl; congruence.
  - destruct (IH (remove em h)) as [Hr Hn]. rewrite Hr, Hn. split; trivial.
    simpl. rewrite filter_twice. apply filter_ext. intros s.
    unfold same_id. now rewrite negb_orb.
Qed.

Lemma filter_none (l l' : list EmitterSubscription) :
  incl l' l -> filter (fun s => negb (existsb (same_id s) l)) l' = [].
Proof.
  induction l' as [ | x l' IH]; intros Hin; simpl; trivial.
  assert (Hx : existsb (same_id x) l = true).
  { apply existsb_exists. exists x. split.
    - apply Hin. now left.
    - apply Nat.eqb_refl. }
  rewrite Hx. simpl. apply IH. intros y Hy. apply Hin. now right.
Qed.

(** From a state whose registrations are the held ones, teardown leaves no
    registration at all. *)
Lemma remove_clears (st : State) :
  registrations (eventEmitter st) = held st ->
  removeEventListeners st
  = mkState (mkEmitter [] (next_id (eventEmitter st))) None None None None.
Proof.
  intros Hreg.
  assert (Hem : eventEmitter (removeEventListeners st)
                = mkEmitter [] (next_id (eventEmitter st))).
  { rewrite remove_as_fold.
    destruct (fold_remove (held st) (eventEmitter st)) as [Hr Hn].
    destruct (fold_left remove (held st) (eventEmitter st)) as [r n].
    simpl in Hr, Hn. subst n. rewrite Hr, Hreg.
    now rewrite (filter_none (held st) (held st) (incl_refl _)). }
  unfold removeEventListeners in *. simpl in Hem. now rewrite Hem.
Qed.

Lemma consistent_initial : consistent initial.
Proof. repeat split. Qed.

Lemma consistent_remove (st : State) :
  consistent st -> consistent (removeEventListeners st).
Proof.
  intros (Hreg & _). rewrite (remove_clears st Hreg). repeat split.
Qed.

(** What a registration call leaves, from a consistent state. *)
Lemma add_from_consistent (callbacks : Callbacks) (st : State) :
  consistent st ->
  let st' := addEventListeners callbacks st in
  consistent st'
  /\ Forall (fun s => next_id (eventEmitter st) <= sub_id s)%nat
       (registrations (eventEmitter st'))
  /\ map (fun s => (sub_event s, sub_callback s)) (registrations (eventEmitter st'))
     = requested callbacks.
Proof.
  intros (Hreg & _). unfold addEventListeners.
  rewrite (remove_clears st Hreg).
  destruct callbacks as [[c1 | ] [c2 | ] [c3 | ] [c4 | ]]; simpl;
    (split; [ repeat split | split; [ repeat constructor; simpl; lia | reflexivity ] ]).
Qed.

Lemma consistent_step (st : State) (c : Call) :
  consistent st -> consistent (step st c).
Proof.
  destruct c as [callbacks | ]; simpl; intros H.
  - now apply add_from_consistent.
  - now apply consistent_remove.
Qed.

Lemma consistent_run (calls : list Call) :
  forall st, consistent st -> consistent (run calls st).
Proof.
  induction calls as [ | c calls IH]; intros st H; simpl; trivial.
  apply IH. now apply consistent_step.
Qed.

(** In a consistent state no event has two active registrations. *)
Lemma consistent_active (st : State) (ev : EventType) :
  consistent st -> (active ev st <= 1)%nat.
Proof.
  intros (Hreg & H1 & H2 & H3 & H4). unfold active. rewrite Hreg. unfold held.
  destruct (paymentCompletedListener st) as [s1 | ],
    (paymentCancelledListener st) as [s2 | ],
    (printCompletedListener st) as [s3 | ],
    (printErrorListener st) as [s4 | ]; simpl in *;
    repeat match goal with H : sub_event _ = _ |- _ => rewrite H; clear H end;
    destruct ev; simpl; lia.
Qed.

(** C7.  After any run of [addEventListeners] and [removeEventListeners]
    calls from the constructed service, every event has at most one active
    registration.  A registration call made after any run leaves exactly the
    registrations it was asked for, each created by this call and held in
    its slot: what was registered before is torn down.  Teardown is
    idempotent; with the four slots null it changes nothing; after any run
    it leaves no registration and the four slots null. *)
Theorem single_active_listener :
  (forall calls ev, (active ev (run calls initial) <= 1)%nat)
  /\ (forall calls callbacks,
        let st := run calls initial in
        let st' := addEventListeners callbacks st in
        registrations (eventEmitter st') = held st'
        /\ Forall (fun s => next_id (eventEmitter st) <= sub_id s)%nat
             (registrations (eventEmitter st'))
        /\ map (fun s => (sub_event s, sub_callback s))
             (registrations (eventEmitter st'))
           = requested callbacks)
  /\ (forall st, removeEventListeners (removeEventListeners st)
                 = removeEventListeners st)
  /\ (forall em, removeEventListeners (mkState em None None None None)
                 = mkState em None None None None)
  /\ (forall calls,
        let st := removeEventListeners (run calls initial) in
        registrations (eventEmitter st) = []
        /\ paymentCompletedListener st = None
        /\ paymentCancelledListener st = None
        /\ printCompletedListener st = None
        /\ printErrorListener st = None).
Proof.
  split; [ | split; [ | split; [ | split ] ] ].
  - intros calls ev. apply consistent_active, consistent_run, consistent_initial.
  - intros calls callbacks st st'.
    destruct (add_from_consistent callbacks st
                (consistent_run calls initial consistent_initial))
      as ((Hreg & _) & Hnew & Hreq).
    repeat split; assumption.
  - intros st. reflexivity.
  - intros em. reflexivity.
  - intros calls st. subst st.
    rewrite (remove_clears (run calls initial)).
    + repeat split.
    + apply (consistent_run calls initial consistent_initial).
Qed.

End ListenerFacts.

(* ================================================================== *)
(** ** Binary64 rounding: facts *)
(* ================================================================== *)

Module Rounding.
Import JS Binary64.

(** *** Binary digits *)

Lemma digits2_size (p : positive) : digits2_pos p = Pos.size p.
Proof. induction p; simpl; congruence. Qed.

Lemma digits2_bounds (p : positive) :
  2 ^ (Z.pos (digits2_pos p) - 1) <= Z.pos p < 2 ^ Z.pos (digits2_pos p).
Proof.
  rewrite digits2_size. split.
  - assert (H := Pos.size_le p).
    assert (H' : 2 ^ Z.pos (Pos.size p) <= 2 * Z.pos p).
    { apply Pos2Z.pos_le_pos in H. rewrite Pos2Z.inj_pow in H.
      rewrite Pos2Z.inj_xO in H. exact H. }
    replace (Z.pos (Pos.size p)) with (Z.pos (Pos.size p) - 1 + 1) in H' by lia.
    rewrite Z.pow_add_r in H' by lia. lia.
  - assert (H := Pos.size_gt p).
    apply Pos2Z.pos_lt_pos in H. rewrite Pos2Z.inj_pow in H. exact H.
Qed.

Lemma Zdigits2_log2 (m : Z) : 0 < m -> Zdigits2 m = Z.log2 m + 1.
Proof.
  destruct m as [ | p | p]; try lia. intros _. simpl Zdigits2.
  assert (H := digits2_bounds p).
  rewrite (Z.log2_unique (Z.pos p) (Z.pos (digits2_pos p) - 1)); try lia.
  replace (Z.succ (Z.pos (digits2_pos p) - 1)) with (Z.pos (digits2_pos p)) by lia.
  exact H.
Qed.

Lemma Zdigits2_bounds (m : Z) :
  0 < m -> 2 ^ (Zdigits2 m - 1) <= m < 2 ^ Zdigits2 m.
Proof. destruct m as [ | p | p]; try lia. intros _. apply digits2_bounds. Qed.

Lemma Zdigits2_le (m : Z) (d : Z) : 0 <= d -> 0 <= m < 2 ^ d -> Zdigits2 m <= d.
Proof.
  intros Hd [H0 H]. destruct (Z.eq_dec m 0) as [-> | Hm]; [simpl; lia | ].
  rewrite Zdigits2_log2 by lia.
  assert (Z.log2 m < d) by (apply Z.log2_lt_pow2; lia). lia.
Qed.

Lemma Zdigits2_unique (m d : Z) : 2 ^ (d - 1) <= m < 2 ^ d -> 0 < d -> Zdigits2 m = d.
Proof.
  intros H Hd.
  assert (0 < m). { assert (0 < 2 ^ (d - 1)) by (apply Z.pow_pos_nonneg; lia). lia. }
  rewrite Zdigits2_log2 by lia.
  rewrite (Z.log2_unique m (d - 1)); try lia.
  replace (Z.succ (d - 1)) with d by lia. exact H.
Qed.

(** *** Shifting right with a rounding bit and a sticky bit *)

Lemma describes_of_loc (N D : Z) :
  0 < D -> 0 <= N -> describes N D (shr_record_of_loc (N / D) (place N D)).
Proof.
  intros HD HN. repeat split; trivial.
  - destruct (place N D) as [ | [ | | ]]; reflexivity.
  - destruct (place N D) as [ | [ | | ]]; reflexivity.
Qed.

Lemma place_cases (N D : Z) :
  0 < D ->
  (N mod D = 0 /\ place N D = loc_Exact)
  \/ (0 < N mod D /\ 2 * (N mod D) < D /\ place N D = loc_Inexact Lt)
  \/ (2 * (N mod D) = D /\ place N D = loc_Inexact Eq)
  \/ (D < 2 * (N mod D) /\ place N D = loc_Inexact Gt).
Proof.
  intros HD. unfold place.
  assert (Hr := Z.mod_pos_bound N D HD).
  destruct (Z.eqb_spec (N mod D) 0) as [E | E]; [now left | right].
  destruct (Z.compare_spec (2 * (N mod D)) D) as [C | C | C].
  - right. left. now split.
  - left. repeat split; trivial. lia.
  - right. right. now split.
Qed.

Lemma shr_1_describes (N D : Z) (mrs : shr_record) :
  describes N D mrs -> describes N (2 * D) (shr_1 mrs).
Proof.
  intros (HD & HN & Hm & Hl).
  assert (Hdiv : N / (2 * D) = (N / D) / 2).
  { rewrite (Z.mul_comm 2 D). symmetry. apply Z.div_div; lia. }
  assert (Hmod : N mod (2 * D) = N mod D + D * ((N / D) mod 2)).
  { rewrite (Z.mul_comm 2 D). apply Z.rem_mul_r; lia. }
  assert (Hr := Z.mod_pos_bound N D HD).
  assert (Hq : 0 <= N / D) by (apply Z.div_pos; lia).
  destruct mrs as [m r s]. simpl in Hm, Hl.
  assert (Hs : orb r s = negb (N mod D =? 0)).
  { destruct (place_cases N D HD) as [(E & P) | [(E & _ & P) | [(E & P) | (E & P)]]];
      rewrite P in Hl; destruct r, s; simpl in Hl; try discriminate Hl;
      destruct (Z.eqb_spec (N mod D) 0); simpl; trivial; lia. }
  assert (Hshape :
    shr_1 (Build_shr_record m r s)
    = Build_shr_record (m / 2) (Z.odd m) (orb r s)).
  { rewrite Hm in *. clear Hm.
    destruct (N / D) as [ | [p | p | ] | p]; try lia; simpl shr_1; f_equal;
      try reflexivity.
    - rewrite Pos2Z.inj_xI. symmetry.
      replace (2 * Z.pos p + 1) with (1 + Z.pos p * 2) by lia.
      rewrite Z.div_add by lia. reflexivity.
    - rewrite Pos2Z.inj_xO. symmetry. rewrite Z.mul_comm. apply Z.div_mul. lia. }
  rewrite Hshape. clear Hshape.
  split; [lia | ]. split; [lia | ]. split.
  - cbn [shr_m]. rewrite Hdiv, Hm. reflexivity.
  - rewrite Hs. unfold place. rewrite Hmod, Hm.
    rewrite Zmod_odd.
    destruct (Z.odd (N / D)).
    + destruct (Z.eqb_spec (N mod D + D * 1) 0) as [E | E]; [lia | ].
      destruct (Z.eqb_spec (N mod D) 0) as [E0 | E0]; cbn [negb loc_of_shr_record].
      * destruct (Z.compare_spec (2 * (N mod D + D * 1)) (2 * D)); trivial; lia.
      * destruct (Z.compare_spec (2 * (N mod D + D * 1)) (2 * D)); trivial; lia.
    + replace (N mod D + D * 0) with (N mod D) by lia.
      destruct (Z.eqb_spec (N mod D) 0) as [E0 | E0]; cbn [negb loc_of_shr_record];
        trivial.
      destruct (Z.compare_spec (2 * (N mod D)) (2 * D)); trivial; lia.
Qed.

Lemma describes_ext (N D D' : Z) (mrs : shr_record) :
  D = D' -> describes N D mrs -> describes N D' mrs.
Proof. now intros ->. Qed.

Lemma iter_shr_describes (p : positive) :
  forall N D mrs,
    describes N D mrs -> describes N (2 ^ Z.pos p * D) (iter_pos shr_1 p mrs).
Proof.
  induction p as [p IH | p IH | ]; intros N D mrs H; simpl iter_pos.
  - apply (describes_ext N (2 ^ Z.pos p * (2 ^ Z.pos p * (2 * D)))).
    + assert (Hp : Z.pos p~1 = Z.pos p + Z.pos p + 1) by lia.
      rewrite Hp. rewrite !Z.pow_add_r by lia. change (2 ^ 1) with 2. ring.
    + apply IH, IH, shr_1_describes, H.
  - apply (describes_ext N (2 ^ Z.pos p * (2 ^ Z.pos p * D))).
    + assert (Hp : Z.pos p~0 = Z.pos p + Z.pos p) by lia.
      rewrite Hp. rewrite Z.pow_add_r by lia. ring.
    + apply IH, IH, H.
  - apply (describes_ext N (2 * D)); [reflexivity | ].
    apply shr_1_describes, H.
Qed.

(** Rounding to nearest, ties to even, moves by at most one half. *)
Lemma round_nearest_even_bounds (N D : Z) (mrs : shr_record) :
  describes N D mrs ->
  let m2 := round_nearest_even (shr_m mrs) (loc_of_shr_record mrs) in
  2 * N - D <= 2 * (m2 * D) <= 2 * N + D /\ N / D <= m2 <= N / D + 1.
Proof.
  intros (HD & HN & Hm & Hl). rewrite Hm, Hl. clear Hm Hl.
  assert (Hr := Z.mod_pos_bound N D HD).
  assert (HE := Z.div_mod N D ltac:(lia)).
  set (q := N / D) in *. set (r := N mod D) in *.
  assert (Hq : 2 * N = 2 * (q * D) + 2 * r) by lia.
  destruct (place_cases N D HD) as [(E & P) | [(E & E' & P) | [(E & P) | (E & P)]]];
    fold r in E; rewrite P; simpl round_nearest_even.
  - split; lia.
  - fold r in E'. split; lia.
  - destruct (Z.even q); split; lia.
  - split; lia.
Qed.

(** *** The rounding step shared by multiplication and division *)

Lemma fexp_unfold (e : Z) : fexp prec emax e = Z.max (e - 53) (-1074).
Proof. reflexivity. Qed.

Lemma shr_describes (N D : Z) (mrs : shr_record) (e n : Z) :
  describes N D mrs ->
  describes N (2 ^ Z.max n 0 * D) (fst (shr mrs e n))
  /\ snd (shr mrs e n) = e + Z.max n 0.
Proof.
  intros H. destruct n as [ | p | p]; simpl shr; simpl fst; simpl snd.
  - split; [ | lia]. apply (describes_ext N D); [ | exact H].
    change (Z.max 0 0) with 0. lia.
  - split; [ | lia]. replace (Z.max (Z.pos p) 0) with (Z.pos p) by lia.
    now apply iter_shr_describes.
  - split; [ | lia]. apply (describes_ext N D); [ | exact H].
    replace (Z.max (Z.neg p) 0) with 0 by lia. lia.
Qed.

(** [binary_round_aux] on the integer part [N / D] of a quotient and the
    place of its fractional part: the result is the integer [m2] nearest to
    the quotient scaled to the exponent [e1] that leaves at most 53 digits
    (ties to even), or [2^52] at the next exponent when rounding carries. *)
Lemma round_aux_spec (s : bool) (N D ex : Z) :
  0 < D -> 0 <= N ->
  let mx := N / D in
  let e1 := Z.max ex (fexp prec emax (Zdigits2 mx + ex)) in
  let D1 := 2 ^ (e1 - ex) * D in
  exists m2,
    2 * N - D1 <= 2 * (m2 * D1) <= 2 * N + D1
    /\ N / D1 <= m2 <= N / D1 + 1
    /\ m2 <= 2 ^ 53
    /\ binary_round_aux prec emax s mx ex (place N D)
       = if m2 <? 2 ^ 53 then finish s m2 e1 else finish s (2 ^ 52) (e1 + 1).
Proof.
  intros HD HN mx e1 D1.
  assert (Hmx : 0 <= mx) by (apply Z.div_pos; lia).
  set (n1 := fexp prec emax (Zdigits2 mx + ex) - ex).
  assert (He1 : e1 - ex = Z.max n1 0) by (unfold e1, n1; lia).
  assert (Hemin : -1074 <= e1).
  { unfold e1. rewrite fexp_unfold. lia. }
  destruct (shr_describes N D (shr_record_of_loc mx (place N D)) ex n1
              (describes_of_loc N D HD HN)) as [Hdesc He'].
  unfold binary_round_aux, shr_fexp. fold n1.
  destruct (shr (shr_record_of_loc mx (place N D)) ex n1) as [mrs' e'].
  simpl fst in Hdesc. simpl snd in He'.
  rewrite <- He1 in Hdesc, He'. fold D1 in Hdesc.
  replace (ex + (e1 - ex)) with e1 in He' by lia. subst e'.
  destruct (round_nearest_even_bounds N D1 mrs' Hdesc) as [Hb Hq].
  set (m2 := round_nearest_even (shr_m mrs') (loc_of_shr_record mrs')) in *.
  assert (Hsmall : N / D1 < 2 ^ 53).
  { unfold D1. rewrite Z.mul_comm. rewrite <- Z.div_div by (try apply Z.pow_pos_nonneg; lia).
    fold mx. apply Z.div_lt_upper_bound; [apply Z.pow_pos_nonneg; lia | ].
    destruct (Z.eq_dec mx 0) as [E | E].
    - rewrite E. apply Z.mul_pos_pos; apply Z.pow_pos_nonneg; lia.
    - assert (Hd := Zdigits2_bounds mx ltac:(lia)).
      assert (Hdig : Zdigits2 mx <= (e1 - ex) + 53).
      { unfold e1. rewrite fexp_unfold. lia. }
      rewrite <- Z.pow_add_r by lia.
      apply Z.lt_le_trans with (1 := proj2 Hd).
      apply Z.pow_le_mono_r; lia. }
  assert (Hq0 : 0 <= N / D1).
  { apply Z.div_pos; [lia | ]. unfold D1.
    apply Z.mul_pos_pos; [apply Z.pow_pos_nonneg | ]; lia. }
  exists m2. split; [exact Hb | ]. split; [exact Hq | ]. split; [lia | ].
  destruct (Z.ltb_spec m2 (2 ^ 53)) as [Hlt | Hge].
  - assert (Hn2 : fexp prec emax (Zdigits2 m2 + e1) - e1 <= 0).
    { rewrite fexp_unfold. assert (Zdigits2 m2 <= 53) by (apply Zdigits2_le; lia). lia. }
    unfold shr.
    destruct (fexp prec emax (Zdigits2 m2 + e1) - e1) as [ | p | p]; try lia;
      reflexivity.
  - assert (E : m2 = 2 ^ 53) by lia. rewrite E.
    replace (fexp prec emax (Zdigits2 (2 ^ 53) + e1) - e1) with 1.
    + reflexivity.
    + rewrite fexp_unfold. change (Zdigits2 (2 ^ 53)) with 54. lia.
Qed.

Lemma place_one (N : Z) : place N 1 = loc_Exact.
Proof. unfold place. now rewrite Z.mod_1_r. Qed.

(** The same for an exact integer mantissa, as multiplication and the
    conversion of an integer use it. *)
Lemma round_aux_exact (s : bool) (m ex : Z) :
  0 <= m ->
  let e1 := Z.max ex (fexp prec emax (Zdigits2 m + ex)) in
  let D1 := 2 ^ (e1 - ex) in
  exists m2,
    2 * m - D1 <= 2 * (m2 * D1) <= 2 * m + D1
    /\ m2 <= 2 ^ 53
    /\ 0 <= m2
    /\ binary_round_aux prec emax s m ex loc_Exact
       = if m2 <? 2 ^ 53 then finish s m2 e1 else finish s (2 ^ 52) (e1 + 1).
Proof.
  intros Hm e1 D1.
  destruct (round_aux_spec s m 1 ex ltac:(lia) Hm) as (m2 & Hb & Hq & Hle & Heq).
  rewrite Z.div_1_r, place_one in Heq. rewrite Z.div_1_r in Hb, Hq.
  rewrite Z.mul_1_r in Hb, Hq. fold e1 in Hb, Hq, Heq. fold D1 in Hb, Hq.
  exists m2. repeat split; try assumption; try lia.
  assert (0 <= m / D1); [ | lia].
  apply Z.div_pos; [lia | ]. apply Z.pow_pos_nonneg; unfold e1; lia.
Qed.

(** *** Integers as Numbers *)

Lemma iter_xO (p n : positive) :
  Z.pos (Pos.iter xO p n) = Z.pos p * 2 ^ Z.pos n.
Proof.
  induction n as [ | n IH] using Pos.peano_ind.
  - simpl. lia.
  - rewrite Pos.iter_succ, Pos2Z.inj_xO, IH, Pos2Z.inj_succ, Z.pow_succ_r by lia.
    ring.
Qed.

(** Aligning a mantissa of at most 53 digits to 53 digits, then rounding,
    changes nothing. *)
Lemma binary_round_exact (s : bool) (p : positive) :
  Z.pos p < 2 ^ 53 ->
  exists m e,
    binary_round prec emax s p 0 = S754_finite s m e
    /\ Z.pos m = Z.pos p * 2 ^ (- e)
    /\ -52 <= e <= 0
    /\ Zdigits2 (Z.pos m) = 53.
Proof.
  intros Hp. unfold binary_round.
  assert (Hd := digits2_bounds p).
  assert (Hd53 : Z.pos (digits2_pos p) <= 53).
  { apply (Zdigits2_le (Z.pos p) 53); lia. }
  rewrite Z.add_0_r, fexp_unfold.
  set (d := Z.pos (digits2_pos p)) in *.
  assert (Hk : exists mz, shl_align p 0 (Z.max (d - 53) (-1074)) = (mz, d - 53)
                          /\ Z.pos mz = Z.pos p * 2 ^ (53 - d)).
  { unfold shl_align. replace (Z.max (d - 53) (-1074) - 0) with (d - 53) by lia.
    destruct (d - 53) as [ | q | q] eqn:E; try lia.
    - exists p. split; [ f_equal; lia | ].
      replace (53 - d) with 0 by lia. lia.
    - exists (Pos.iter xO p q). split; [ f_equal; lia | ].
      rewrite iter_xO. f_equal. f_equal. lia. }
  destruct Hk as (mz & -> & Hmz).
  assert (Hdig : Zdigits2 (Z.pos mz) = 53).
  { assert (E1 : 2 ^ (53 - 1) = 2 ^ (d - 1) * 2 ^ (53 - d)).
    { rewrite <- Z.pow_add_r by lia. f_equal. lia. }
    assert (E2 : 2 ^ 53 = 2 ^ d * 2 ^ (53 - d)).
    { rewrite <- Z.pow_add_r by lia. f_equal. lia. }
    assert (0 < 2 ^ (53 - d)) by (apply Z.pow_pos_nonneg; lia).
    apply Zdigits2_unique; [ | lia]. rewrite Hmz. split.
    - rewrite E1. apply Z.mul_le_mono_nonneg_r; lia.
    - rewrite E2. apply Z.mul_lt_mono_pos_r; lia. }
  destruct (round_aux_exact s (Z.pos mz) (d - 53) ltac:(lia))
    as (m2 & Hb & Hle & H0 & Heq).
  rewrite Hdig, fexp_unfold in Hb, Heq.
  replace (Z.max (d - 53) (Z.max (53 + (d - 53) - 53) (-1074))) with (d - 53)
    in Hb, Heq by lia.
  replace (d - 53 - (d - 53)) with 0 in Hb by lia.
  change (2 ^ 0) with 1 in Hb.
  assert (E : m2 = Z.pos mz) by lia. subst m2.
  assert (Hlt := Zdigits2_bounds (Z.pos mz) ltac:(lia)). rewrite Hdig in Hlt.
  destruct (Z.ltb_spec (Z.pos mz) (2 ^ 53)) as [ _ | ? ]; [ | lia].
  rewrite Heq. unfold finish.
  destruct (Z.leb_spec (d - 53) (emax - prec)) as [ _ | H]; [ | unfold emax, prec in H; lia].
  exists mz, (d - 53). repeat split; trivial; try lia.
  rewrite Hmz. f_equal. f_equal. lia.
Qed.

Lemma of_Z_exact (z : Z) :
  0 < Z.abs z < 2 ^ 53 ->
  exists m e,
    of_Z z = S754_finite (z <? 0) m e
    /\ Z.pos m = Z.abs z * 2 ^ (- e)
    /\ -52 <= e <= 0
    /\ Zdigits2 (Z.pos m) = 53.
Proof.
  intros Hz. unfold of_Z, binary_normalize.
  destruct z as [ | p | p]; simpl Z.abs in *; try lia.
  - apply (binary_round_exact false p); lia.
  - apply (binary_round_exact true p); lia.
Qed.

Lemma integral_of_Z (z : Z) :
  Z.abs z < 2 ^ 53 -> integral_value (of_Z z) = Some z.
Proof.
  intros Hz. destruct (Z.eq_dec z 0) as [-> | Hnz]; [reflexivity | ].
  destruct (of_Z_exact z ltac:(lia)) as (m & e & -> & Hm & He & _).
  unfold integral_value.
  set (n := if z <? 0 then Z.neg m else Z.pos m).
  assert (Hn : n = z * 2 ^ (- e)).
  { unfold n. destruct (Z.ltb_spec z 0).
    - rewrite <- Pos2Z.opp_pos, Hm. lia.
    - rewrite Hm. lia. }
  destruct (Z.leb_spec 0 e).
  - replace e with 0 in * by lia. rewrite Hn. f_equal. simpl. lia.
  - assert (0 < 2 ^ (- e)) by (apply Z.pow_pos_nonneg; lia).
    rewrite Hn, Z.mod_mul by lia. simpl. rewrite Z.div_mul by lia. reflexivity.
Qed.

End Rounding.

(* ================================================================== *)
(** ** Transaction references *)
(* ================================================================== *)

Module ReferenceFacts.
Import JS Service Samples Binary64 Rounding.

Lemma binary64_finite (s : bool) (m : positive) (e : Z) :
  is_binary64 (S754_finite s m e) = true ->
  Z.pos m < 2 ^ 53 /\ -1074 <= e <= 971
  /\ (e = -1074 \/ 2 ^ 52 <= Z.pos m).
Proof.
  unfold is_binary64, valid_binary, bounded, canonical_mantissa.
  intros H. apply andb_true_iff in H. destruct H as [Hc Hb].
  apply Z.eqb_eq in Hc. apply Z.leb_le in Hb.
  rewrite fexp_unfold in Hc. unfold emax, prec in Hb.
  assert (Hd := digits2_bounds m).
  set (d := Z.pos (digits2_pos m)) in *.
  split; [ | split; [lia | ] ].
  - apply Z.lt_le_trans with (1 := proj2 Hd). apply Z.pow_le_mono_r; lia.
  - destruct (Z.eq_dec e (-1074)) as [ | Hne]; [now left | right].
    replace d with 53 in Hd by lia. exact (proj1 Hd).
Qed.

(** A binary64 value in [0, 1) is a zero or has a positive sign, a mantissa
    below 2^53 and an exponent of at most -53. *)
Lemma unit_interval (x : Number) :
  is_binary64 x = true -> leb lit_0 x = true -> ltb x one = true ->
  (exists s, x = S754_zero s)
  \/ (exists m e, x = S754_finite false m e /\ Z.pos m < 2 ^ 53 /\ e <= -53).
Proof.
  intros Hv H0 H1. destruct x as [s | s | | s m e].
  - left. now exists s.
  - destruct s; discriminate.
  - discriminate.
  - right. destruct s; [discriminate | ].
    destruct (binary64_finite false m e Hv) as (Hm & He & Hn).
    exists m, e. split; [reflexivity | split; [exact Hm | ] ].
    change one with (S754_finite false 4503599627370496 (-52)) in H1.
    unfold ltb, SFltb, SFcompare in H1.
    destruct (Z.compare_spec e (-52)) as [E | E | E]; try discriminate H1; try lia.
    destruct Hn as [Hn | Hn]; [lia | ].
    rewrite Pos.compare_cont_spec in H1. simpl in H1.
    destruct (Pos.compare_spec m 4503599627370496) as [C | C | C];
      try discriminate H1.
    apply Pos2Z.pos_lt_pos in C. change (2 ^ 52) with 4503599627370496 in Hn. lia.
Qed.

Section Floor.

Variable shortest_repr : Number -> string.

Lemma NumberToString_of_Z (z : Z) :
  0 <= z < 2 ^ 53 -> NumberToString shortest_repr (of_Z z) = digits (Z.to_N z).
Proof.
  intros Hz. destruct (Z.eq_dec z 0) as [-> | Hnz]; [reflexivity | ].
  assert (Hi := integral_of_Z z ltac:(lia)).
  destruct (of_Z_exact z ltac:(lia)) as (m & e & Heq & _).
  rewrite Heq in Hi |- *. unfold NumberToString. rewrite Hi.
  destruct (Z.ltb_spec (Z.abs z) (2 ^ 53)) as [ _ | H]; [ | lia].
  destruct (Z.ltb_spec z 0) as [ | _]; [lia | ].
  simpl. f_equal. lia.
Qed.

(** The text of the floor of a positive Number whose integer part is a safe
    integer: the digits of that integer part. *)
Lemma floor_text (m : positive) (e : Z) :
  e < 0 -> Z.pos m / 2 ^ (- e) < 2 ^ 53 ->
  NumberToString shortest_repr (Math_floor (S754_finite false m e))
  = digits (Z.to_N (Z.pos m / 2 ^ (- e))).
Proof.
  intros He Hm.
  assert (Hpow : 0 < 2 ^ (- e)) by (apply Z.pow_pos_nonneg; lia).
  assert (Hr : 0 <= Z.pos m / 2 ^ (- e)) by (apply Z.div_pos; lia).
  unfold Math_floor.
  destruct (Z.leb_spec 0 e); [lia | ].
  destruct (Z.eqb_spec (Z.pos m / 2 ^ (- e)) 0) as [E | E].
  - rewrite E. reflexivity.
  - apply NumberToString_of_Z. lia.
Qed.

Lemma lit_1000000_eq :
  lit_1000000 = S754_finite false 8589934592000000 (-33).
Proof. reflexivity. Qed.

(** A quotient by [v] of a value between [n * v] and [(n + 1) * v]. *)
Lemma quotient_between (a v n : Z) :
  0 < v -> n * v <= a <= (n + 1) * v -> n <= a / v <= n + 1.
Proof.
  intros Hv [Hlo Hhi]. split.
  - apply Z.div_le_lower_bound; lia.
  - apply Z.div_le_upper_bound; lia.
Qed.

(** The random part of a reference: for every binary64 value in [0, 1) the
    floor of its binary64 product with 1000000 is an integer [r] between 0
    and 999999, written in decimal digits.  [r] is the integer part of the
    exact product, or the next integer when the exact product is so close
    below it that the binary64 product is that integer. *)
Lemma random_part (rnd : Number) :
  is_binary64 rnd = true -> leb lit_0 rnd = true -> ltb rnd one = true ->
  exists r, 0 <= r <= 999999
    /\ scaled_floor rnd 1000000 <= r <= scaled_floor rnd 1000000 + 1
    /\ NumberToString shortest_repr (Math_floor (mul rnd lit_1000000))
       = digits (Z.to_N r).
Proof.
  intros Hv H0 H1.
  destruct (unit_interval rnd Hv H0 H1) as [[s ->] | (m & e & -> & Hm & He)].
  - exists 0. split; [lia | ]. split; [simpl; lia | ].
    rewrite lit_1000000_eq. destruct s; reflexivity.
  - rewrite lit_1000000_eq. unfold mul, SFmul. cbn [xorb].
    rewrite Pos2Z.inj_mul.
    unfold scaled_floor. rewrite Z.max_r, Z.max_l by lia.
    rewrite Z.pow_0_r, Z.mul_1_r.
    set (M := Z.pos m) in *. set (E := e + -33).
    assert (HM : 0 < M) by (unfold M; lia).
    destruct (round_aux_exact false (M * 8589934592000000) E ltac:(lia))
      as (m2 & Hb & Hle & Hm2 & Heq).
    rewrite Heq. clear Heq.
    set (e1 := Z.max E (fexp prec emax (Zdigits2 (M * 8589934592000000) + E))) in *.
    set (D1 := 2 ^ (e1 - E)) in *.
    assert (Hpe : 2 ^ 53 <= 2 ^ (- e)) by (apply Z.pow_le_mono_r; lia).
    assert (Hdig : Zdigits2 (M * 8589934592000000) <= 53 - e).
    { apply Zdigits2_le; [lia | ]. split; [lia | ].
      replace (53 - e) with (- e + 53) by lia.
      rewrite Z.pow_add_r by lia.
      apply Z.mul_lt_mono_nonneg; lia. }
    assert (He1 : E <= e1 <= -33).
    { unfold e1. rewrite fexp_unfold. unfold E. lia. }
    assert (HD1 : 0 < D1 <= 2 ^ (- e)).
    { unfold D1. split; [apply Z.pow_pos_nonneg; lia | ].
      apply Z.pow_le_mono_r; unfold E in *; lia. }
    set (P := 2 ^ (- e - 53)).
    assert (HP : 0 < P) by (apply Z.pow_pos_nonneg; lia).
    assert (HPe : 2 ^ (- e) = 2 ^ 53 * P).
    { unfold P. rewrite <- Z.pow_add_r by lia. f_equal. lia. }
    assert (Hbound : m2 * D1 < 8589934592000000 * 2 ^ (- e)).
    { rewrite HPe. rewrite HPe in HD1. lia. }
    set (v := 2 ^ (- e1)).
    assert (Hv0 : 0 < v) by (apply Z.pow_pos_nonneg; lia).
    assert (HvD : 8589934592 * 2 ^ (- e) = v * D1).
    { unfold v, D1. rewrite <- Z.pow_add_r by lia.
      replace (- e1 + (e1 - E)) with (33 + - e) by (unfold E; lia).
      rewrite Z.pow_add_r by lia. reflexivity. }
    assert (Hm2' : m2 < 10 ^ 6 * v).
    { apply (Z.mul_lt_mono_pos_r D1); [lia | ].
      replace (10 ^ 6 * v * D1) with (10 ^ 6 * (v * D1)) by ring.
      rewrite <- HvD. lia. }
    assert (Hpow1 : v = 2 * 2 ^ (- (e1 + 1))).
    { unfold v. rewrite <- Z.pow_succ_r by lia. f_equal. lia. }
    (* the integer part of the exact product *)
    set (n := M * 1000000 / 2 ^ (- e)).
    assert (Hpos : 0 < 2 ^ (- e)) by lia.
    assert (Hdm := Z.div_mod (M * 1000000) (2 ^ (- e)) ltac:(lia)).
    assert (Hmod := Z.mod_pos_bound (M * 1000000) (2 ^ (- e)) Hpos).
    fold n in Hdm.
    assert (Hn1 : n * 2 ^ (- e) <= M * 1000000) by lia.
    assert (Hn2 : M * 1000000 < (n + 1) * 2 ^ (- e)) by lia.
    set (A := n * v).
    assert (HA : A * D1 <= M * 8589934592000000).
    { unfold A. replace (n * v * D1) with (n * (v * D1)) by ring.
      rewrite <- HvD. lia. }
    set (B := (n + 1) * v).
    assert (HB : M * 8589934592000000 + 1 <= B * D1).
    { unfold B. replace ((n + 1) * v * D1) with ((n + 1) * (v * D1)) by ring.
      rewrite <- HvD. lia. }
    assert (Hlo : A <= m2).
    { destruct (Z.le_gt_cases A m2) as [H | H]; [exact H | exfalso].
      assert (m2 * D1 <= (A - 1) * D1)
        by (apply Z.mul_le_mono_nonneg_r; lia).
      lia. }
    assert (Hhi : m2 <= B).
    { destruct (Z.le_gt_cases m2 B) as [H | H]; [exact H | exfalso].
      assert ((B + 1) * D1 <= m2 * D1)
        by (apply Z.mul_le_mono_nonneg_r; lia).
      lia. }
    destruct (Z.ltb_spec m2 (2 ^ 53)) as [Hlt | Hge].
    + destruct m2 as [ | p | p]; try lia.
      * exists 0. split; [lia | ]. split; [ | reflexivity].
        assert (Hn0 : 0 <= n) by (apply Z.div_pos; lia).
        unfold A in Hlo. nia.
      * unfold finish.
        destruct (Z.leb_spec e1 (emax - prec)) as [ _ | H];
          [ | unfold emax, prec in H; lia].
        exists (Z.pos p / v).
        assert (Hq : n <= Z.pos p / v <= n + 1)
          by (apply quotient_between; [exact Hv0 | fold A B; lia]).
        assert (Hr : 0 <= Z.pos p / v < 10 ^ 6).
        { split; [apply Z.div_pos; lia | ].
          apply Z.div_lt_upper_bound; lia. }
        split; [lia | ]. split; [exact Hq | ].
        apply floor_text; [lia | fold v; lia].
    + change (2 ^ 52) with 4503599627370496. unfold finish.
      destruct (Z.leb_spec (e1 + 1) (emax - prec)) as [ _ | H];
        [ | unfold emax, prec in H; lia].
      set (v' := 2 ^ (- (e1 + 1))) in *.
      assert (Hv' : 0 < v') by (apply Z.pow_pos_nonneg; lia).
      assert (Em2 : m2 = 2 * 4503599627370496) by lia.
      exists (4503599627370496 / v').
      assert (Hq : n <= 4503599627370496 / v' <= n + 1).
      { apply quotient_between; [exact Hv' | ].
        unfold A, B in *. rewrite Hpow1 in Hlo, Hhi. lia. }
      assert (Hr : 0 <= 4503599627370496 / v' < 10 ^ 6).
      { split; [apply Z.div_pos; lia | ].
        apply Z.div_lt_upper_bound; lia. }
      split; [lia | ]. split; [exact Hq | ].
      apply floor_text; [lia | fold v'; lia].
Qed.

(** The text of a timestamp: an integral Number below 2^53 is written as
    its decimal digits. *)
Lemma timestamp_text (now : Number) (t : Z) :
  integral_value now = Some t -> 0 <= t < 2 ^ 53 ->
  NumberToString shortest_repr now = digits (Z.to_N t).
Proof.
  intros Hi Ht. destruct now as [s | s | | s m e]; try discriminate Hi.
  - simpl in Hi. injection Hi as <-. reflexivity.
  - unfold NumberToString. rewrite Hi.
    destruct (Z.ltb_spec (Z.abs t) (2 ^ 53)) as [ _ | H]; [ | lia].
    assert (Hs : s = false).
    { destruct s; [exfalso | reflexivity]. unfold integral_value in Hi.
      destruct (Z.leb_spec 0 e).
      - assert (Et : Z.neg m * 2 ^ e = t) by congruence.
        assert (0 < 2 ^ e) by (apply Z.pow_pos_nonneg; lia).
        assert (Z.neg m * 2 ^ e < 0) by (apply Z.mul_neg_pos; lia). lia.
      - assert (Hp : 0 < 2 ^ (- e)) by (apply Z.pow_pos_nonneg; lia).
        destruct (Z.eqb_spec (Z.neg m mod 2 ^ (- e)) 0) as [E | E];
          [ | discriminate Hi].
        assert (Et : Z.neg m / 2 ^ (- e) = t) by congruence.
        assert (Hdm := Z.div_mod (Z.neg m) (2 ^ (- e)) ltac:(lia)).
        rewrite E, Et in Hdm. nia. }
    rewrite Hs. simpl. f_equal. lia.
Qed.

(** C9.  With [now] the integral Number of milliseconds read from the clock
    (its integer value [t], a safe integer: 0 <= t < 2^53, which holds for
    every time value a Date can have) and [random] the binary64 value drawn
    in [0, 1), both generators return "TXN_", the decimal digits of [t], an
    underscore and the decimal digits of an integer [r] with
    0 <= r <= 999999.  The digits are those of the Standard Library's
    printer of unsigned decimal numbers (no sign, no leading zero, no
    exponent).  [r] is the integer part of the exact product
    [random * 1000000], or the next integer when the binary64 product rounds
    up to it. *)
Theorem reference_pattern (now random : Number) (t : Z) :
  integral_value now = Some t -> 0 <= t < 2 ^ 53 ->
  is_binary64 random = true -> leb lit_0 random = true -> ltb random one = true ->
  exists r,
    0 <= r <= 999999
    /\ scaled_floor random 1000000 <= r <= scaled_floor random 1000000 + 1
    /\ Service.generateTransactionReference shortest_repr now random
       = ("TXN_" ++ NilZero.string_of_uint (N.to_uint (Z.to_N t))
          ++ "_" ++ NilZero.string_of_uint (N.to_uint (Z.to_N r)))%string
    /\ FormScreen.generateTransactionReference shortest_repr now random
       = ("TXN_" ++ NilZero.string_of_uint (N.to_uint (Z.to_N t))
          ++ "_" ++ NilZero.string_of_uint (N.to_uint (Z.to_N r)))%string.
Proof.
  intros Hi Ht Hv H0 H1.
  destruct (random_part random Hv H0 H1) as (r & Hr & Hfl & Htxt).
  exists r. split; [exact Hr | ]. split; [exact Hfl | ].
  unfold Service.generateTransactionReference, FormScreen.generateTransactionReference.
  fold lit_1000000.
  rewrite (timestamp_text now t Hi Ht), Htxt. split; reflexivity.
Qed.

End Floor.

(** Two references, evaluated: an ordinary draw, and the largest Number
    below 1, for which the random part is 999999. *)
Example reference_sample :
  Service.generateTransactionReference no_repr
    (of_Z 1703875200000) (decimal 123456789 9)
  = "TXN_1703875200000_123456"%string.
Proof. vm_compute. reflexivity. Qed.

Example reference_largest_draw :
  FormScreen.generateTransactionReference no_repr
    (of_Z 1703875200000) (S754_finite false 9007199254740991 (-53))
  = "TXN_1703875200000_999999"%string.
Proof. vm_compute. reflexivity. Qed.

(** The draw 0.000998 is a Number slightly below 998 / 1000000: the integer
    part of its exact product with 1000000 is 997, the binary64 product is
    998, and so is the random part. *)
Example reference_rounded_up :
  decimal 998 6 = S754_finite false 4602462646390533 (-62)
  /\ scaled_floor (decimal 998 6) 1000000 = 997
  /\ Service.generateTransactionReference no_repr
       (of_Z 1703875200000) (decimal 998 6)
     = "TXN_1703875200000_998"%string.
Proof. repeat split; vm_compute; reflexivity. Qed.

(** The pattern at the clock value 1703875200000 and the draw 0.123456789,
    whose exact product with 1000000 has the integer part 123456. *)
Lemma reference_pattern_witness :
  exists r,
    0 <= r <= 999999
    /\ 123456 <= r <= 123456 + 1
    /\ Service.generateTransactionReference no_repr
         (of_Z 1703875200000) (decimal 123456789 9)
       = ("TXN_1703875200000_"
          ++ NilZero.string_of_uint (N.to_uint (Z.to_N r)))%string
    /\ FormScreen.generateTransactionReference no_repr
         (of_Z 1703875200000) (decimal 123456789 9)
       = ("TXN_1703875200000_"
          ++ NilZero.string_of_uint (N.to_uint (Z.to_N r)))%string.
Proof.
  apply (reference_pattern no_repr (of_Z 1703875200000) (decimal 123456789 9)
           1703875200000).
  - reflexivity.
  - lia.
  - reflexivity.
  - reflexivity.
  - reflexivity.
Defined.

End ReferenceFacts.

(* ================================================================== *)
(** ** Currency units *)
(* ================================================================== *)

Module ConversionFacts.
Import JS Service Binary64 Rounding.

Lemma lit_100_eq : lit_100 = S754_finite false c100 (-46).
Proof. reflexivity. Qed.

Lemma div_eucl_div_mod (a b : Z) : Z.div_eucl a b = (a / b, a mod b).
Proof. unfold Z.div, Z.modulo. now destruct (Z.div_eucl a b). Qed.

(** The quotient and remainder that the division by 100 hands to the
    rounding step, for a dividend with a full mantissa. *)
Lemma div_core_100 (mk : positive) (ek : Z) :
  Zdigits2 (Z.pos mk) = 53 -> -1000 <= ek <= 0 ->
  SFdiv_core_binary prec emax (Z.pos mk) ek (Z.pos c100) (-46)
  = (Z.pos mk * 2 ^ 53 / Z.pos c100, ek - 7,
     place (Z.pos mk * 2 ^ 53) (Z.pos c100)).
Proof.
  intros Hd He. unfold SFdiv_core_binary. rewrite Hd.
  change (Zdigits2 (Z.pos c100)) with 53.
  replace (Z.min (fexp prec emax (53 + ek - (53 + -46))) (ek - -46))
    with (ek - 7) by (rewrite fexp_unfold; lia).
  replace (ek - -46 - (ek - 7)) with 53 by lia.
  cbv iota. rewrite Z.shiftl_mul_pow2 by lia.
  rewrite div_eucl_div_mod. f_equal.
Qed.

(** [Math.round] of a Number strictly within one half of the positive
    integer [K] (of [-K] for a negative sign). *)
Lemma round_to_integer (s : bool) (m : positive) (e K : Z) :
  e < 0 -> 0 < K ->
  (2 * K - 1) * 2 ^ (- e) < 2 * Z.pos m < (2 * K + 1) * 2 ^ (- e) ->
  Math_round (S754_finite s m e) = of_Z (if s then - K else K).
Proof.
  intros He HK Hb. unfold Math_round.
  destruct (Z.leb_spec 0 e); [lia | ].
  set (d := 2 ^ (- e)) in *.
  assert (Hd : 0 < d) by (apply Z.pow_pos_nonneg; lia).
  assert (Hz : (2 * (if s then Z.neg m else Z.pos m) + d) / (2 * d)
               = if s then - K else K).
  { symmetry. destruct s.
    - apply Z.div_unique with (r := 2 * Z.neg m + d - 2 * d * - K); [ | ring].
      left. rewrite <- Pos2Z.opp_pos. lia.
    - apply Z.div_unique with (r := 2 * Z.pos m + d - 2 * d * K); [ | ring].
      left. lia. }
  rewrite Hz.
  destruct (Z.eqb_spec (if s then - K else K) 0) as [E | E]; [ | reflexivity].
  destruct s; lia.
Qed.

(** Division by 100 of an integer Number [K] below 100 * 2^45: the quotient
    is a finite Number [q] with |100 q - K| <= 25/128, stated in units of
    the exponent of [q]. *)
Lemma div_100 (s : bool) (mk : positive) (ek K : Z) :
  Zdigits2 (Z.pos mk) = 53 -> Z.pos mk = K * 2 ^ (- ek) -> -52 <= ek <= -1 ->
  0 < K < 100 * 2 ^ 45 ->
  exists mq eq,
    div (S754_finite s mk ek) lit_100 = S754_finite s mq eq
    /\ -60 <= eq <= -7
    /\ - (25 * 2 ^ (- eq)) <= 128 * (100 * Z.pos mq - K * 2 ^ (- eq))
       <= 25 * 2 ^ (- eq).
Proof.
  intros Hd Hmk Hek HK.
  rewrite lit_100_eq. unfold div, SFdiv. rewrite (div_core_100 mk ek Hd ltac:(lia)).
  rewrite xorb_false_r.
  set (N := Z.pos mk * 2 ^ 53). set (D := Z.pos c100).
  assert (HD : D = 100 * 2 ^ 46) by reflexivity.
  assert (HN0 : 0 <= N) by (unfold N; lia).
  destruct (round_aux_spec s N D (ek - 7) ltac:(unfold D; lia) HN0)
    as (m2 & Hb & _ & Hle & Heq).
  rewrite Heq. clear Heq.
  set (e1 := Z.max (ek - 7) (fexp prec emax (Zdigits2 (N / D) + (ek - 7)))) in *.
  set (pk := 2 ^ (- ek)) in *.
  assert (Hpk : 0 < pk) by (apply Z.pow_pos_nonneg; lia).
  assert (Hq : 0 <= N / D < 2 ^ (52 - ek)).
  { split; [apply Z.div_pos; unfold D; lia | ].
    apply Z.div_lt_upper_bound; [unfold D; lia | ].
    replace (52 - ek) with (52 + - ek) by lia. rewrite Z.pow_add_r by lia.
    fold pk. unfold N. rewrite Hmk, HD. nia. }
  assert (He1 : ek - 7 <= e1 <= -8).
  { assert (Zdigits2 (N / D) <= 52 - ek) by (apply Zdigits2_le; lia).
    unfold e1. rewrite fexp_unfold. lia. }
  set (u := 2 ^ (- e1)). set (w := 2 ^ (e1 - (ek - 7))) in *.
  assert (Hu : 256 <= u).
  { unfold u. change 256 with (2 ^ 8). apply Z.pow_le_mono_r; lia. }
  assert (Hw : 0 < w) by (apply Z.pow_pos_nonneg; lia).
  assert (HNu : N = K * u * (w * 2 ^ 46)).
  { unfold N, u, w. rewrite Hmk. fold pk.
    assert (E : 2 ^ 53 * pk = 2 ^ (- e1) * (2 ^ (e1 - (ek - 7)) * 2 ^ 46)).
    { unfold pk. rewrite <- !Z.pow_add_r by lia. f_equal. lia. }
    nia. }
  assert (Herr : -50 <= 100 * m2 - K * u <= 50).
  { assert (Hc : 0 < w * 2 ^ 46) by lia.
    rewrite HNu, HD in Hb.
    replace (2 * (m2 * (w * (100 * 2 ^ 46)))) with ((200 * m2) * (w * 2 ^ 46)) in Hb by ring.
    replace (2 * (K * u * (w * 2 ^ 46)) - w * (100 * 2 ^ 46))
      with ((2 * (K * u) - 100) * (w * 2 ^ 46)) in Hb by ring.
    replace (2 * (K * u * (w * 2 ^ 46)) + w * (100 * 2 ^ 46))
      with ((2 * (K * u) + 100) * (w * 2 ^ 46)) in Hb by ring.
    destruct Hb as [Hb1 Hb2].
    apply Z.mul_le_mono_pos_r in Hb1; [ | exact Hc].
    apply Z.mul_le_mono_pos_r in Hb2; [ | exact Hc].
    lia. }
  assert (HKu : 256 <= K * u) by nia.
  destruct (Z.ltb_spec m2 (2 ^ 53)) as [Hlt | Hge].
  - destruct m2 as [ | p | p]; try lia.
    unfold finish.
    destruct (Z.leb_spec e1 (emax - prec)) as [ _ | H];
      [ | unfold emax, prec in H; lia].
    exists p, e1. split; [reflexivity | ]. split; [lia | ].
    fold u. lia.
  - assert (E : m2 = 2 ^ 53) by lia.
    change (2 ^ 52) with 4503599627370496. unfold finish.
    destruct (Z.leb_spec (e1 + 1) (emax - prec)) as [ _ | H];
      [ | unfold emax, prec in H; lia].
    exists 4503599627370496%positive, (e1 + 1). split; [reflexivity | ].
    split; [lia | ].
    assert (Hu2 : u = 2 * 2 ^ (- (e1 + 1))).
    { unfold u. rewrite <- Z.pow_succ_r by lia. f_equal. lia. }
    set (uq := 2 ^ (- (e1 + 1))) in *.
    rewrite E, Hu2 in Herr. rewrite Hu2 in Hu.
    replace (K * (2 * uq)) with (2 * (K * uq)) in Herr by ring.
    lia.
Qed.

(** Multiplication by 100 of such a quotient: the product is a finite
    Number strictly within one half of [K] (its own rounding error is at
    most one quarter). *)
Lemma mul_100 (s : bool) (mq : positive) (eq K : Z) :
  -60 <= eq <= -7 -> 0 < K < 100 * 2 ^ 45 ->
  - (25 * 2 ^ (- eq)) <= 128 * (100 * Z.pos mq - K * 2 ^ (- eq))
    <= 25 * 2 ^ (- eq) ->
  exists mp ep,
    mul (S754_finite s mq eq) lit_100 = S754_finite s mp ep
    /\ ep < 0
    /\ (2 * K - 1) * 2 ^ (- ep) < 2 * Z.pos mp < (2 * K + 1) * 2 ^ (- ep).
Proof.
  intros Heq HK Herr.
  rewrite lit_100_eq. unfold mul, SFmul. rewrite xorb_false_r.
  rewrite Pos2Z.inj_mul.
  set (M := Z.pos mq) in *. set (uq := 2 ^ (- eq)) in *.
  assert (HM : 0 < M) by (unfold M; lia).
  assert (Huq : 128 <= uq).
  { unfold uq. change 128 with (2 ^ 7). apply Z.pow_le_mono_r; lia. }
  assert (Hc : Z.pos c100 = 100 * 2 ^ 46) by reflexivity.
  rewrite Hc.
  destruct (round_aux_exact s (M * (100 * 2 ^ 46)) (eq + -46) ltac:(lia))
    as (m2 & Hb & Hle & Hm2 & Hres).
  rewrite Hres. clear Hres.
  set (E := eq + -46) in *.
  set (e1 := Z.max E (fexp prec emax (Zdigits2 (M * (100 * 2 ^ 46)) + E))) in *.
  set (D1 := 2 ^ (e1 - E)) in *.
  assert (HKuq : K * uq <= (100 * 2 ^ 45 - 1) * uq) by nia.
  assert (HMle : 100 * M < 2 ^ 52 * uq) by lia.
  assert (Hdig : Zdigits2 (M * (100 * 2 ^ 46)) <= 52 - E).
  { apply Zdigits2_le; [unfold E; lia | ]. split; [lia | ].
    replace (52 - E) with (52 + (46 + - eq)) by (unfold E; lia).
    rewrite !Z.pow_add_r by lia. fold uq. lia. }
  assert (He1 : E <= e1 <= -1).
  { unfold e1. rewrite fexp_unfold. unfold E. lia. }
  set (v := 2 ^ (- e1)).
  assert (Hv : 2 <= v).
  { unfold v. change 2 with (2 ^ 1) at 1. apply Z.pow_le_mono_r; lia. }
  assert (HD1 : 0 < D1) by (apply Z.pow_pos_nonneg; lia).
  assert (Hid : 2 ^ 46 * uq = v * D1).
  { unfold uq, v, D1. rewrite <- !Z.pow_add_r by (unfold E in *; lia).
    f_equal. unfold E. lia. }
  (* the rounding error of the product, in units of [1 / (uq * v)] *)
  assert (Hp : - uq <= 2 * (m2 * uq) - 200 * (M * v) <= uq).
  { assert (H1 : (2 * (m2 * uq) - 200 * (M * v)) * D1
                 = (2 * (m2 * D1) - 2 * (M * (100 * 2 ^ 46))) * uq).
    { replace ((2 * (m2 * D1) - 2 * (M * (100 * 2 ^ 46))) * uq)
        with (2 * (m2 * uq) * D1 - 200 * M * (2 ^ 46 * uq)) by ring.
      rewrite Hid. ring. }
    assert (H2 : - (uq * D1) <= (2 * (m2 * uq) - 200 * (M * v)) * D1 <= uq * D1).
    { rewrite H1. nia. }
    split.
    - apply (Z.mul_le_mono_pos_r _ _ D1 HD1). lia.
    - apply (Z.mul_le_mono_pos_r _ _ D1 HD1). lia. }
  (* the error inherited from the quotient *)
  assert (Hqv : - (50 * (uq * v)) <= 128 * (200 * (M * v) - 2 * (K * (uq * v)))
                <= 50 * (uq * v)).
  { replace (128 * (200 * (M * v) - 2 * (K * (uq * v))))
      with ((128 * (100 * M - K * uq)) * (2 * v)) by ring.
    nia. }
  assert (Htot : - (128 * uq + 50 * (uq * v)) <= 128 * ((2 * m2 - 2 * (K * v)) * uq)
                 <= 128 * uq + 50 * (uq * v)).
  { replace (128 * ((2 * m2 - 2 * (K * v)) * uq))
      with (128 * (2 * (m2 * uq) - 200 * (M * v))
            + 128 * (200 * (M * v) - 2 * (K * (uq * v)))) by ring.
    lia. }
  assert (Hfin : - v < 2 * m2 - 2 * (K * v) < v).
  { assert (H3 : 128 * uq + 50 * (uq * v) < 128 * (v * uq)) by nia.
    split.
    - apply (Z.mul_lt_mono_pos_r uq); [lia | ]. nia.
    - apply (Z.mul_lt_mono_pos_r uq); [lia | ]. nia. }
  assert (Hm2pos : 0 < m2) by nia.
  destruct (Z.ltb_spec m2 (2 ^ 53)) as [Hlt | Hge].
  - destruct m2 as [ | p | p]; try lia.
    unfold finish.
    destruct (Z.leb_spec e1 (emax - prec)) as [ _ | H];
      [ | unfold emax, prec in H; lia].
    exists p, e1. split; [reflexivity | ]. split; [lia | ].
    fold v. lia.
  - assert (Em : m2 = 2 ^ 53) by lia.
    change (2 ^ 52) with 4503599627370496. unfold finish.
    destruct (Z.leb_spec (e1 + 1) (emax - prec)) as [ _ | H];
      [ | unfold emax, prec in H; lia].
    exists 4503599627370496%positive, (e1 + 1). split; [reflexivity | ].
    assert (Hv2 : v = 2 * 2 ^ (- (e1 + 1))).
    { unfold v. rewrite <- Z.pow_succ_r by lia. f_equal. lia. }
    set (v' := 2 ^ (- (e1 + 1))) in *.
    assert (Hv' : 2 <= v').
    { destruct (Z.eq_dec e1 (-1)) as [E1 | E1].
      - exfalso. unfold v' in Hv2. rewrite E1 in Hv2. simpl in Hv2.
        rewrite Em, Hv2 in Hfin. lia.
      - unfold v'. change 2 with (2 ^ 1) at 1. apply Z.pow_le_mono_r; lia. }
    split.
    + destruct (Z.eq_dec e1 (-1)) as [E1 | E1]; [ | lia].
      exfalso. unfold v' in Hv2. rewrite E1 in Hv2. simpl in Hv2.
      rewrite Em, Hv2 in Hfin. lia.
    + rewrite Em, Hv2 in Hfin.
      replace (2 * (K * (2 * v'))) with (2 * (2 * (K * v'))) in Hfin by ring.
      lia.
Qed.

(** Kobo to Naira and back, for every integer below 100 * 2^45 in absolute
    value. *)
Lemma kobo_round_trip (k : Z) :
  Z.abs k < 100 * 2 ^ 45 -> nairaToKobo (koboToNaira (of_Z k)) = of_Z k.
Proof.
  intros Hk. destruct (Z.eq_dec k 0) as [-> | Hnz]; [reflexivity | ].
  destruct (of_Z_exact k ltac:(lia)) as (mk & ek & Hof & Hmk & Hek & Hd).
  assert (Hek' : ek <= -1).
  { destruct (Z.eq_dec ek 0) as [E | E]; [ | lia].
    exfalso. rewrite E in Hmk. simpl in Hmk.
    assert (Hb := Zdigits2_bounds (Z.pos mk) ltac:(lia)). rewrite Hd in Hb. lia. }
  unfold nairaToKobo, koboToNaira. rewrite Hof.
  destruct (div_100 (k <? 0) mk ek (Z.abs k) Hd Hmk ltac:(lia) ltac:(lia))
    as (mq & eq & -> & Heq & Herr).
  destruct (mul_100 (k <? 0) mq eq (Z.abs k) Heq ltac:(lia) Herr)
    as (mp & ep & -> & Hep & Hb).
  rewrite (round_to_integer (k <? 0) mp ep (Z.abs k) Hep ltac:(lia) Hb).
  rewrite <- Hof. f_equal.
  destruct (Z.ltb_spec k 0); lia.
Qed.

(** C10 as amended.  For every integer kobo amount [k] with
    |k| < 100 * 2^45 = 3,518,437,208,883,200 the conversions are mutually
    inverse: [nairaToKobo (koboToNaira k) = k], and for the Naira amount
    with two decimal digits [a = k / 100], [koboToNaira (nairaToKobo a) = a].
    Division, multiplication and [Math.round] are the binary64 ones. *)
Theorem converters_inverse_in_range (k : Z) :
  Z.abs k < 100 * 2 ^ 45 ->
  nairaToKobo (koboToNaira (of_Z k)) = of_Z k
  /\ koboToNaira (nairaToKobo (decimal k 2)) = decimal k 2.
Proof.
  intros Hk. split; [now apply kobo_round_trip | ].
  change (decimal k 2) with (koboToNaira (of_Z k)).
  now rewrite kobo_round_trip.
Qed.

(** The amended statement at 150050 kobo, that is 1500.50 Naira. *)
Lemma converters_inverse_in_range_witness :
  nairaToKobo (koboToNaira (of_Z 150050)) = of_Z 150050
  /\ koboToNaira (nairaToKobo (decimal 150050 2)) = decimal 150050 2.
Proof. apply (converters_inverse_in_range 150050). reflexivity. Defined.

(** C10, as stated, fails: the integer 3518437208883202 is a Number, its
    hundredth rounds to 35184372088832.02, the product with 100 rounds to
    3518437208883202.5 and [Math.round] gives 3518437208883203; and the
    two-decimal amount 44841065172271.34 does not come back either. *)
Lemma converters_not_inverse :
  nairaToKobo (koboToNaira (of_Z 3518437208883202)) <> of_Z 3518437208883202
  /\ integral_value (of_Z 3518437208883202) = Some 3518437208883202
  /\ koboToNaira (nairaToKobo (decimal 4484106517227134 2))
     <> decimal 4484106517227134 2.
Proof.
  split; [ | split ].
  - vm_compute. discriminate.
  - vm_compute. reflexivity.
  - vm_compute. discriminate.
Qed.

End ConversionFacts.

(* ================================================================== *)
(** ** Whole amounts *)
(* ================================================================== *)

Module WholeAmountFacts.
Import JS Service Binary64 Rounding ValidationFacts ConversionFacts.

(** A finite Number is equal to itself. *)
Lemma strict_neq_refl (s : bool) (m : positive) (e : Z) :
  strict_neq (S754_finite s m e) (S754_finite s m e) = false.
Proof.
  unfold strict_neq, SFeqb, SFcompare.
  rewrite Z.compare_refl, Pos.compare_cont_refl. now destruct s.
Qed.

(** The product of a whole amount with 100 is exact. *)
Lemma whole_times_100 (n : Z) :
  0 < n < 2 ^ 45 -> mul (of_Z n) lit_100 = of_Z (100 * n).
Proof.
  intros Hn.
  destruct (of_Z_exact n ltac:(lia)) as (mn & en & Hof & Hmn & Hen & Hdn).
  destruct (of_Z_exact (100 * n) ltac:(lia)) as (m' & e' & Hof' & Hm' & He' & Hd').
  rewrite Hof, Hof', lit_100_eq.
  replace (n <? 0) with false by (symmetry; apply Z.ltb_ge; lia).
  replace (100 * n <? 0) with false by (symmetry; apply Z.ltb_ge; lia).
  rewrite Z.abs_eq in Hmn, Hm' by lia.
  unfold mul, SFmul. cbn [xorb]. rewrite Pos2Z.inj_mul.
  assert (Hc : Z.pos c100 = 100 * 2 ^ 46) by reflexivity. rewrite Hc.
  set (M := Z.pos mn * (100 * 2 ^ 46)).
  set (E := en + -46).
  assert (Hb' := Zdigits2_bounds (Z.pos m') ltac:(lia)). rewrite Hd' in Hb'.
  assert (Hbn := Zdigits2_bounds (Z.pos mn) ltac:(lia)). rewrite Hdn in Hbn.
  assert (Hp' : 0 < 2 ^ (- e')) by (apply Z.pow_pos_nonneg; lia).
  assert (Hpn : 0 < 2 ^ (- en)) by (apply Z.pow_pos_nonneg; lia).
  (* the exponent of 100 n is above the one of the raw product *)
  assert (Hee : E <= e').
  { unfold E. destruct (Z.le_gt_cases en e') as [H | H]; [lia | ]. exfalso.
    assert (2 ^ (- en) <= 2 ^ (- e')) by (apply Z.pow_le_mono_r; lia).
    change (53 - 1) with 52 in Hbn. nia. }
  set (D1 := 2 ^ (e' - E)).
  assert (HD1 : 0 < D1) by (apply Z.pow_pos_nonneg; lia).
  assert (HM : M = Z.pos m' * D1).
  { unfold M, D1, E. rewrite Hmn, Hm'.
    assert (Ee : 2 ^ (- en) * 2 ^ 46 = 2 ^ (- e') * 2 ^ (e' - (en + -46))).
    { rewrite <- !Z.pow_add_r by lia. f_equal. lia. }
    nia. }
  assert (HdM : Zdigits2 M = 53 + (e' - E)).
  { apply Zdigits2_unique; [ | lia]. rewrite HM.
    replace (53 + (e' - E) - 1) with (52 + (e' - E)) by lia.
    rewrite !Z.pow_add_r by lia. fold D1.
    change (53 - 1) with 52 in Hb'. nia. }
  destruct (round_aux_exact false M E ltac:(unfold M; lia))
    as (m2 & Hb & Hle & Hm2 & Hres).
  rewrite Hres. clear Hres. rewrite HdM, fexp_unfold in Hb |- *.
  replace (Z.max E (Z.max (53 + (e' - E) + E - 53) (-1074))) with e' in * by lia.
  fold D1 in Hb. rewrite HM in Hb.
  assert (Em : m2 = Z.pos m') by nia. rewrite Em.
  destruct (Z.ltb_spec (Z.pos m') (2 ^ 53)) as [ _ | H]; [ | lia].
  unfold finish.
  destruct (Z.leb_spec e' (emax - prec)) as [ _ | H];
    [reflexivity | unfold emax, prec in H; lia].
Qed.

(** The precision test never misfires on whole amounts: every integer
    amount between 10 and 999999 is valid. *)
Lemma whole_amount_valid (n : Z) :
  10 <= n <= 999999 -> validatePaymentAmount (Num (of_Z n)) = ok.
Proof.
  intros Hn.
  assert (Hprod := whole_times_100 n ltac:(lia)).
  destruct (of_Z_exact n ltac:(lia)) as (mn & en & Hof & Hmn & Hen & Hdn).
  destruct (of_Z_exact (100 * n) ltac:(lia)) as (m' & e' & Hof' & Hm' & He' & Hd').
  replace (n <? 0) with false in Hof by (symmetry; apply Z.ltb_ge; lia).
  replace (100 * n <? 0) with false in Hof' by (symmetry; apply Z.ltb_ge; lia).
  rewrite Z.abs_eq in Hmn, Hm' by lia.
  assert (Hbn := Zdigits2_bounds (Z.pos mn) ltac:(lia)). rewrite Hdn in Hbn.
  assert (Hb' := Zdigits2_bounds (Z.pos m') ltac:(lia)). rewrite Hd' in Hb'.
  change (53 - 1) with 52 in Hbn, Hb'.
  (* the exponent of n lies between -49 and -33, the one of 100 n below 0 *)
  assert (Hen' : -49 <= en <= -33).
  { split.
    - destruct (Z.lt_ge_cases en (-49)) as [H | H]; [ | lia]. exfalso.
      assert (2 ^ 50 <= 2 ^ (- en)) by (apply Z.pow_le_mono_r; lia).
      assert (10 * 2 ^ 50 <= n * 2 ^ (- en)) by (apply Z.mul_le_mono_nonneg; lia).
      lia.
    - destruct (Z.lt_ge_cases (-33) en) as [H | H]; [ | lia]. exfalso.
      assert (2 ^ (- en) <= 2 ^ 32) by (apply Z.pow_le_mono_r; lia).
      assert (0 <= 2 ^ (- en)) by (apply Z.pow_nonneg; lia).
      assert (n * 2 ^ (- en) <= 999999 * 2 ^ 32) by (apply Z.mul_le_mono_nonneg; lia).
      lia. }
  assert (He'' : e' < 0).
  { destruct (Z.eq_dec e' 0) as [E0 | E0]; [ | lia]. exfalso.
    rewrite E0 in Hm'. change (2 ^ (- 0)) with 1 in Hm'. lia. }
  rewrite validate_number by (rewrite Hof; reflexivity).
  rewrite Hprod.
  assert (H1 : leb (of_Z n) lit_0 = false) by (rewrite Hof; reflexivity).
  assert (H2 : ltb (of_Z n) lit_10 = false).
  { rewrite Hof. change lit_10 with (S754_finite false 5629499534213120 (-49)).
    unfold ltb, SFltb, SFcompare.
    destruct (Z.compare_spec en (-49)) as [E | E | E]; try lia; trivial.
    rewrite Pos.compare_cont_spec. simpl Pos.switch_Eq.
    destruct (Pos.compare_spec mn 5629499534213120) as [C | C | C]; trivial.
    exfalso. apply Pos2Z.pos_lt_pos in C. rewrite Hmn, E in C.
    change (2 ^ (- -49)) with (2 ^ 49) in C. lia. }
  assert (H3 : gtb (of_Z n) lit_999999_99 = false).
  { rewrite Hof. change lit_999999_99 with (S754_finite false 8589934506100654 (-33)).
    unfold gtb, SFltb, SFcompare.
    destruct (Z.compare_spec (-33) en) as [E | E | E]; try lia; trivial.
    rewrite Pos.compare_cont_spec. simpl Pos.switch_Eq.
    destruct (Pos.compare_spec 8589934506100654 mn) as [C | C | C]; trivial.
    exfalso. apply Pos2Z.pos_lt_pos in C. rewrite Hmn, <- E in C.
    change (2 ^ (- -33)) with (2 ^ 33) in C. lia. }
  rewrite H1, H2, H3, Hof'.
  rewrite (round_to_integer false m' e' (100 * n) He'' ltac:(lia)) by nia.
  rewrite Hof', strict_neq_refl. reflexivity.
Qed.

End WholeAmountFacts.

(* ================================================================== *)
(** ** More on the validation of amounts *)
(* ================================================================== *)

Module AmountFacts.
Import JS Service ValidationFacts WholeAmountFacts.
Local Open Scope string_scope.

(** X1.  Every whole amount from 10 to 999999 Naira is accepted: the answer
    is [valid: true] and carries no error. *)
Theorem whole_amounts_accepted (n : Z) :
  10 <= n <= 999999 ->
  valid (validatePaymentAmount (Num (of_Z n))) = true
  /\ error (validatePaymentAmount (Num (of_Z n))) = None.
Proof. intros Hn. rewrite (whole_amount_valid n Hn). split; reflexivity. Qed.

(** The amount 500 of the form's test data. *)
Lemma whole_amounts_accepted_witness :
  valid (validatePaymentAmount (Num (of_Z 500))) = true
  /\ error (validatePaymentAmount (Num (of_Z 500))) = None.
Proof. apply (whole_amounts_accepted 500). lia. Defined.

(** X2.  The answer of [validatePaymentAmount] is well formed for every
    value: either [valid: true] without an error, or [valid: false] with
    one of the five messages of the function. *)
Theorem validation_outcomes (v : Value) :
  (valid (validatePaymentAmount v) = true
   /\ error (validatePaymentAmount v) = None)
  \/ (valid (validatePaymentAmount v) = false
      /\ In (error (validatePaymentAmount v))
           [ Some "Amount must be a valid number";
             Some "Amount must be greater than zero";
             Some "Minimum amount is ₦10";
             Some "Amount exceeds maximum limit (₦999,999.99)";
             Some "Amount cannot have more than 2 decimal places" ]).
Proof.
  unfold validatePaymentAmount.
  destruct (negb (truthy v) || negb (String.eqb (typeof v) "number"));
    [right; split; [reflexivity | simpl; tauto] | ].
  destruct v as [ | | b | a | s | z | | c];
    try (right; split; [reflexivity | simpl; tauto]).
  destruct (leb a lit_0); [right; split; [reflexivity | simpl; tauto] | ].
  destruct (ltb a lit_10); [right; split; [reflexivity | simpl; tauto] | ].
  destruct (gtb a lit_999999_99); [right; split; [reflexivity | simpl; tauto] | ].
  destruct (strict_neq (Math_round (mul a lit_100)) (mul a lit_100));
    [right; split; [reflexivity | simpl; tauto] | ].
  left. split; reflexivity.
Qed.

Lemma lit_10_eq : lit_10 = S754_finite false 5629499534213120 (-49).
Proof. reflexivity. Qed.

Lemma lit_999999_99_eq :
  lit_999999_99 = S754_finite false 8589934506100654 (-33).
Proof. reflexivity. Qed.

(** A Number above zero is truthy and not at most zero. *)
Lemma positive_passes (a : Number) :
  ltb lit_0 a = true -> truthy_number a = true /\ leb a lit_0 = false.
Proof. destruct a as [s | [ | ] | | [ | ] m e]; simpl; intros H; try discriminate H; split; reflexivity. Qed.

(** A Number above the maximum is above zero and not below the minimum. *)
Lemma above_maximum_passes (a : Number) :
  gtb a lit_999999_99 = true -> ltb lit_0 a = true /\ ltb a lit_10 = false.
Proof.
  rewrite lit_999999_99_eq, lit_10_eq.
  destruct a as [s | s | | s m e].
  - discriminate.
  - destruct s; [discriminate | intros _; split; reflexivity].
  - discriminate.
  - destruct s; [discriminate | ].
    unfold gtb, ltb, SFltb, SFcompare. intros H.
    split; [reflexivity | ].
    destruct (Z.compare_spec (-33) e) as [E | E | E]; try discriminate H.
    + subst e. reflexivity.
    + destruct (Z.compare_spec e (-49)) as [E' | E' | E'];
        first [reflexivity | lia].
Qed.

(** X3.  Outside the range the message names the bound that is missed:
    every Number above zero and below 10 fails with the message of the
    minimum, and every Number above 999,999.99, Infinity included, fails
    with the message of the maximum. *)
Theorem out_of_range_messages (a : Number) :
  (ltb lit_0 a = true /\ ltb a lit_10 = true)
  \/ gtb a lit_999999_99 = true ->
  valid (validatePaymentAmount (Num a)) = false
  /\ error (validatePaymentAmount (Num a))
     = Some (if ltb a lit_10 then "Minimum amount is ₦10"
             else "Amount exceeds maximum limit (₦999,999.99)").
Proof.
  intros [[H0 H10] | Hmax].
  - destruct (positive_passes a H0) as [Ht Hle].
    rewrite (validate_number a Ht), Hle, H10. split; reflexivity.
  - destruct (above_maximum_passes a Hmax) as [H0 H10].
    destruct (positive_passes a H0) as [Ht Hle].
    rewrite (validate_number a Ht), Hle, H10, Hmax. split; reflexivity.
Qed.

(** The amounts 9.99 and Infinity. *)
Lemma out_of_range_messages_witness :
  (valid (validatePaymentAmount (Num (decimal 999 2))) = false
   /\ error (validatePaymentAmount (Num (decimal 999 2)))
      = Some "Minimum amount is ₦10")
  /\ (valid (validatePaymentAmount (Num Infinity)) = false
      /\ error (validatePaymentAmount (Num Infinity))
         = Some "Amount exceeds maximum limit (₦999,999.99)").
Proof.
  split.
  - apply (out_of_range_messages (decimal 999 2)). left. split; reflexivity.
  - apply (out_of_range_messages Infinity). right. reflexivity.
Defined.

End AmountFacts.

(* ================================================================== *)
(** ** The calls into the native module *)
(* ================================================================== *)

Module BridgeFacts.
Import JS Service Bridge BridgeSpec Samples ValidationFacts.
Local Open Scope string_scope.

Lemma or_else_truthy (a : Value) (fallback : string) :
  fallback <> "" -> truthy (or_else a (Str fallback)) = true.
Proof.
  intros Hf. unfold or_else. destruct (truthy a) eqn:E; [exact E | ].
  destruct fallback; [contradiction | reflexivity].
Qed.

Lemma caught_well_formed (e : Props) (fallback : string) :
  fallback <> "" -> well_formed (caught e fallback).
Proof. intros Hf. unfold well_formed, caught. simpl. now apply or_else_truthy. Qed.

(** The first test of [makePayment] refuses nothing that the validator
    would accept. *)
Lemma guard_implies_invalid (a : Number) :
  negb (truthy_number a) || leb a lit_0 = true ->
  valid (validatePaymentAmount (Num a)) = false.
Proof.
  intros H. destruct (truthy_number a) eqn:Ht.
  - simpl in H. rewrite (validate_number a Ht), H. reflexivity.
  - unfold validatePaymentAmount. simpl. rewrite Ht. reflexivity.
Qed.

Section Methods.

Variable native : NativeModule.
Variable shortest_repr : Number -> string.
Variable TypeError_message : string.

(** The request of the code is the request of the specification side. *)
Lemma request_built (now random : Number) (pd : PaymentData) :
  mkPaymentInfo (amount pd)
    (match paymentType pd with Some t => t | None => Card end)
    (if truthy_opt (reference pd) then str (reference pd)
     else generateTransactionReference shortest_repr now random)
    (if truthy_opt (remark pd) then str (remark pd) else "Payment transaction")
  = request shortest_repr now random pd.
Proof.
  unfold request.
  destruct (reference pd) as [[ | c s] | ], (remark pd) as [[ | c' s'] | ];
    reflexivity.
Qed.

(** X5.  [makePayment] reaches the native module exactly when
    [validatePaymentAmount] accepts the amount, and then once, with the
    amount unchanged, the card as default payment type, the caller's
    reference or a generated one, and the caller's remark or "Payment
    transaction"; its answer is then [success: true] exactly when the
    native call resolves.  When the amount is not accepted it answers
    [success: false] without any native call. *)
Theorem makePayment_gate (now random : Number) (pd : PaymentData) :
  if valid (validatePaymentAmount (Num (amount pd)))
  then snd (makePayment native shortest_repr now random pd)
       = [N_makePayment (request shortest_repr now random pd)]
       /\ success (fst (makePayment native shortest_repr now random pd))
          = match native (N_makePayment (request shortest_repr now random pd)) with
            | Resolves _ => true
            | Rejects _ => false
            end
  else snd (makePayment native shortest_repr now random pd) = []
       /\ success (fst (makePayment native shortest_repr now random pd)) = false.
Proof.
  unfold makePayment.
  destruct (negb (truthy_number (amount pd)) || leb (amount pd) lit_0) eqn:G.
  - rewrite (guard_implies_invalid _ G). split; reflexivity.
  - rewrite request_built.
    destruct (valid (validatePaymentAmount (Num (amount pd)))); simpl.
    + destruct (native (N_makePayment (request shortest_repr now random pd)));
        split; reflexivity.
    + split; reflexivity.
Qed.

(** X6.  When the amount is refused, the error of [makePayment] is "Valid
    amount is required" for an amount that is zero, NaN or at most zero,
    and otherwise the validator's message about the minimum, the maximum or
    the decimal places; the validator's messages "Amount must be a valid
    number" and "Amount must be greater than zero" are never reported. *)
Theorem makePayment_refusal (now random : Number) (pd : PaymentData) :
  valid (validatePaymentAmount (Num (amount pd))) = false ->
  In (error (fst (makePayment native shortest_repr now random pd)))
     [ Str "Valid amount is required";
       Str "Minimum amount is ₦10";
       Str "Amount exceeds maximum limit (₦999,999.99)";
       Str "Amount cannot have more than 2 decimal places" ]
  /\ (error (fst (makePayment native shortest_repr now random pd))
      = Str "Valid amount is required"
      <-> negb (truthy_number (amount pd)) || leb (amount pd) lit_0 = true)
  /\ snd (makePayment native shortest_repr now random pd) = [].
Proof.
  intros Hv. unfold makePayment.
  destruct (negb (truthy_number (amount pd)) || leb (amount pd) lit_0) eqn:G.
  - split; [simpl; tauto | ]. split; [ | reflexivity]. split; trivial.
  - rewrite Hv. simpl negb. cbv iota.
    apply orb_false_iff in G. destruct G as [Ht Hle].
    apply negb_false_iff in Ht.
    rewrite (validate_number _ Ht), Hle in *.
    destruct (ltb (amount pd) lit_10).
    + split; [simpl; tauto | ]. split; [ | reflexivity].
      split; intros H; discriminate H.
    + destruct (gtb (amount pd) lit_999999_99).
      * split; [simpl; tauto | ]. split; [ | reflexivity].
        split; intros H; discriminate H.
      * destruct (strict_neq (Math_round (mul (amount pd) lit_100))
                    (mul (amount pd) lit_100)).
        -- split; [simpl; tauto | ]. split; [ | reflexivity].
           split; intros H; discriminate H.
        -- discriminate Hv.
Qed.

(** X7.  [printReceipt] calls the native module exactly when it is given a
    non-empty array, once and with that array; for null, undefined and the
    empty array it answers [success: false] with "Print data is required"
    and makes no call. *)
Theorem printReceipt_gate (printData : option (list PrintItem)) :
  match printData with
  | Some (x :: items) =>
      snd (printReceipt native printData) = [N_printReceipt (x :: items)]
  | _ =>
      snd (printReceipt native printData) = []
      /\ success (fst (printReceipt native printData)) = false
      /\ error (fst (printReceipt native printData))
         = Str "Print data is required"
  end.
Proof.
  destruct printData as [[ | x items] | ]; simpl.
  - repeat split.
  - destruct (native _) as [result | e]; [ | reflexivity].
    destruct (acknowledged result); reflexivity.
  - repeat split.
Qed.

(** X8.  A receipt built by [createStandardReceipt] or by
    [createSimpleReceipt] is never refused as empty: [printReceipt] hands
    it to the native module as it is. *)
Theorem built_receipts_reach_the_printer
    (formatCurrency : Number -> string)
    (td : PaymentResult) (mi : option MerchantInfo) :
  snd (printReceipt native (Some (createStandardReceipt shortest_repr td mi)))
  = [N_printReceipt (createStandardReceipt shortest_repr td mi)]
  /\ snd (printReceipt native (Some (createSimpleReceipt formatCurrency td)))
     = [N_printReceipt (createSimpleReceipt formatCurrency td)].
Proof.
  split.
  - unfold printReceipt.
    destruct (createStandardReceipt shortest_repr td mi) as [ | x items] eqn:E.
    + apply (f_equal (@List.length PrintItem)) in E.
      rewrite ReceiptFacts.receipt_length in E. discriminate E.
    + simpl. destruct (native _) as [result | e]; [ | reflexivity].
      destruct (acknowledged result); reflexivity.
  - simpl. destruct (native _) as [result | e]; [ | reflexivity].
    destruct (acknowledged result); reflexivity.
Qed.

(** X9.  [isTerminalReady] answers true exactly when the native module
    resolves [getTerminalInfo] with an object whose [isInitialized] is the
    boolean true; it makes that one call. *)
Theorem isTerminalReady_iff :
  (fst (isTerminalReady native) = true
   <-> exists o, native N_getTerminalInfo = Resolves (RObject o)
                 /\ get o "isInitialized" = Boolean true)
  /\ snd (isTerminalReady native) = [N_getTerminalInfo].
Proof.
  unfold isTerminalReady, getTerminalInfo.
  destruct (native N_getTerminalInfo) as [[ | | o] | e]; simpl.
  - split; [ | reflexivity]. split; [discriminate | intros (o & H & _); discriminate H].
  - split; [ | reflexivity]. split; [discriminate | intros (o & H & _); discriminate H].
  - split; [ | reflexivity]. split.
    + intros H. exists o. split; [reflexivity | ].
      destruct (get o "isInitialized") as [ | | [ | ] | | | | | ]; try discriminate H.
      reflexivity.
    + intros (o' & H & Hi). injection H as <-. now rewrite Hi.
  - split; [ | reflexivity]. split; [discriminate | intros (o & H & _); discriminate H].
Qed.

(** X10.  Every response of the seven methods that call the native module
    is well formed, however the native call settles: a success has no
    error, and a failure has an error that is truthy, so that a reader's
    [result.error || ...] shows it. *)
Theorem responses_well_formed :
  (forall config, well_formed (fst (initializeTerminal native config)))
  /\ (forall logo, well_formed (fst (setCompanyLogo native logo)))
  /\ (forall now random pd,
        well_formed (fst (makePayment native shortest_repr now random pd)))
  /\ (forall printData, well_formed (fst (printReceipt native printData)))
  /\ well_formed (fst (showSettings native TypeError_message))
  /\ well_formed (fst (callHome native TypeError_message))
  /\ well_formed (fst (getTerminalInfo native)).
Proof.
  assert (Hc : forall e fb, fb <> "" -> well_formed (caught e fb))
    by (intros; now apply caught_well_formed).
  repeat split.
  - intros config. unfold initializeTerminal.
    destruct (native _) as [result | e]; [ | apply Hc; discriminate].
    destruct (acknowledged result); reflexivity.
  - intros logo. unfold setCompanyLogo.
    destruct (native _) as [result | e]; [ | apply Hc; discriminate].
    destruct (acknowledged result); reflexivity.
  - intros now random pd. unfold makePayment.
    destruct (negb (truthy_number (amount pd)) || leb (amount pd) lit_0);
      [apply Hc; discriminate | ].
    destruct (valid (validatePaymentAmount (Num (amount pd)))); simpl negb; cbv iota.
    + destruct (native _) as [result | e]; [reflexivity | apply Hc; discriminate].
    + apply Hc. discriminate.
  - intros printData. unfold printReceipt.
    destruct printData as [items | ]; [ | apply Hc; discriminate].
    destruct (Nat.eqb (List.length items) 0); [apply Hc; discriminate | ].
    destruct (native _) as [result | e]; [ | apply Hc; discriminate].
    destruct (acknowledged result); [reflexivity | ].
    unfold well_formed. simpl. apply or_else_truthy. discriminate.
  - unfold showSettings.
    destruct (native _) as [[ | | o] | e]; simpl; try (apply Hc; discriminate).
    reflexivity.
  - unfold callHome.
    destruct (native _) as [[ | | o] | e]; simpl; try (apply Hc; discriminate).
    reflexivity.
  - unfold getTerminalInfo.
    destruct (native _) as [result | e]; [reflexivity | apply Hc; discriminate].
Qed.

End Methods.

(** X11.  When the native module resolves without a value (null or
    undefined), [showSettings] and [callHome] answer [success: false],
    although the native call was made and did not fail: reading [message]
    of the missing value throws, and the error reported is the message of
    that TypeError.  [getTerminalInfo], which reads nothing of the value,
    answers [success: true] with the missing value as data. *)
Theorem resolved_without_value
    (native : NativeModule) (TypeError_message : string) (result : Resolved) :
  result = RNull \/ result = RUndefined ->
  native N_showSettings = Resolves result ->
  native N_callHome = Resolves result ->
  native N_getTerminalInfo = Resolves result ->
  TypeError_message <> "" ->
  (success (fst (showSettings native TypeError_message)) = false
   /\ error (fst (showSettings native TypeError_message)) = Str TypeError_message
   /\ snd (showSettings native TypeError_message) = [N_showSettings])
  /\ (success (fst (callHome native TypeError_message)) = false
      /\ error (fst (callHome native TypeError_message)) = Str TypeError_message
      /\ snd (callHome native TypeError_message) = [N_callHome])
  /\ (success (fst (getTerminalInfo native)) = true
      /\ data (fst (getTerminalInfo native)) = result
      /\ error (fst (getTerminalInfo native)) = Undefined).
Proof.
  intros Hr Hs Hh Hi Hm.
  assert (Ht : truthy (Str TypeError_message) = true)
    by (destruct TypeError_message; [contradiction | reflexivity]).
  unfold showSettings, callHome, getTerminalInfo. rewrite Hs, Hh, Hi.
  destruct Hr as [-> | ->]; simpl; unfold caught, or_else; simpl get;
    rewrite Ht; repeat split.
Qed.

(** A native module that resolves every call with null. *)
Lemma resolved_without_value_witness :
  (success (fst (showSettings (resolving RNull) "Cannot read properties of null"))
   = false
   /\ error (fst (showSettings (resolving RNull) "Cannot read properties of null"))
      = Str "Cannot read properties of null"
   /\ snd (showSettings (resolving RNull) "Cannot read properties of null")
      = [N_showSettings])
  /\ (success (fst (callHome (resolving RNull) "Cannot read properties of null"))
      = false
      /\ error (fst (callHome (resolving RNull) "Cannot read properties of null"))
         = Str "Cannot read properties of null"
      /\ snd (callHome (resolving RNull) "Cannot read properties of null")
         = [N_callHome])
  /\ (success (fst (getTerminalInfo (resolving RNull))) = true
      /\ data (fst (getTerminalInfo (resolving RNull))) = RNull
      /\ error (fst (getTerminalInfo (resolving RNull))) = Undefined).
Proof.
  apply (resolved_without_value (resolving RNull)
           "Cannot read properties of null" RNull);
    try reflexivity.
  - left. reflexivity.
  - discriminate.
Defined.

(** The refusal of the amount 5 by a module that would resolve. *)
Lemma makePayment_refusal_witness :
  In (error (fst (makePayment (resolving RNull) no_repr
                    (of_Z 1703875200000) (decimal 123456789 9)
                    (mkPaymentData (of_Z 5) None None None))))
     [ Str "Valid amount is required";
       Str "Minimum amount is ₦10";
       Str "Amount exceeds maximum limit (₦999,999.99)";
       Str "Amount cannot have more than 2 decimal places" ]
  /\ (error (fst (makePayment (resolving RNull) no_repr
                    (of_Z 1703875200000) (decimal 123456789 9)
                    (mkPaymentData (of_Z 5) None None None)))
      = Str "Valid amount is required"
      <-> negb (truthy_number (of_Z 5)) || leb (of_Z 5) lit_0 = true)
  /\ snd (makePayment (resolving RNull) no_repr
            (of_Z 1703875200000) (decimal 123456789 9)
            (mkPaymentData (of_Z 5) None None None)) = [].
Proof.
  apply (makePayment_refusal (resolving RNull) no_repr
           (of_Z 1703875200000) (decimal 123456789 9)
           (mkPaymentData (of_Z 5) None None None)).
  reflexivity.
Defined.

End BridgeFacts.

(* ================================================================== *)
(** ** References as texts *)
(* ================================================================== *)

Module TextFacts.
Import JS Service Binary64 Rounding ReferenceFacts TextSpec Samples.

Local Abbreviation printed z := (NilZero.string_of_uint (N.to_uint (Z.to_N z))).

Lemma uint_text_free (d : Decimal.uint) :
  free_of "_" (NilEmpty.string_of_uint d) = true.
Proof. induction d; simpl; trivial. Qed.

Lemma printed_free (n : N) :
  free_of "_" (NilZero.string_of_uint (N.to_uint n)) = true.
Proof.
  unfold NilZero.string_of_uint.
  destruct (N.to_uint n); try reflexivity; apply uint_text_free.
Qed.

Lemma to_uint_nonnil (n : N) : N.to_uint n <> Decimal.Nil.
Proof.
  destruct n as [ | p]; simpl; [discriminate | ].
  apply DecimalPos.Unsigned.to_uint_nonnil.
Qed.

(** Different numbers have different digits. *)
Lemma printed_inj (n n' : N) :
  NilZero.string_of_uint (N.to_uint n) = NilZero.string_of_uint (N.to_uint n') ->
  n = n'.
Proof.
  intros H.
  apply DecimalN.Unsigned.to_uint_inj.
  assert (H1 := NilZero.usu (N.to_uint n) (to_uint_nonnil n)).
  assert (H2 := NilZero.usu (N.to_uint n') (to_uint_nonnil n')).
  rewrite H in H1. rewrite H1 in H2. now injection H2.
Qed.

(** A text is cut at its first underscore in one way only. *)
Lemma split_at_underscore (a a' b b' : string) :
  free_of "_" a = true -> free_of "_" a' = true ->
  (a ++ String "_" b)%string = (a' ++ String "_" b')%string ->
  a = a' /\ b = b'.
Proof.
  revert a'. induction a as [ | x a IH]; intros a' Ha Ha' H.
  - destruct a' as [ | y a']; simpl in H.
    + injection H as ->. now split.
    + injection H as <- _. simpl in Ha'. discriminate Ha'.
  - destruct a' as [ | y a']; simpl in H.
    + injection H as -> _. simpl in Ha. discriminate Ha.
    + injection H as -> H. simpl in Ha, Ha'.
      apply andb_true_iff in Ha. apply andb_true_iff in Ha'.
      destruct (IH a' (proj2 Ha) (proj2 Ha') H) as [-> ->]. now split.
Qed.

Lemma reference_text_inj (t t' r r' : Z) :
  0 <= t -> 0 <= t' -> 0 <= r -> 0 <= r' ->
  ("TXN_" ++ printed t ++ "_" ++ printed r)%string
  = ("TXN_" ++ printed t' ++ "_" ++ printed r')%string ->
  t = t' /\ r = r'.
Proof.
  intros Ht Ht' Hr Hr' H.
  simpl in H. injection H as H.
  apply split_at_underscore in H; try apply printed_free.
  destruct H as [H1 H2].
  apply printed_inj in H1. apply printed_inj in H2. lia.
Qed.

(** X12.  A reference encodes its clock value and its random integer
    injectively: two generated references are equal exactly when both the
    millisecond and the random integer coincide.  Two payments started in
    the same millisecond therefore get the same reference whenever their
    random integers agree, one chance in a million for uniform draws. *)
Theorem references_collide_only_on_equal_parts
    (shortest_repr : Number -> string)
    (now now' random random' : Number) (t t' : Z) :
  integral_value now = Some t -> 0 <= t < 2 ^ 53 ->
  integral_value now' = Some t' -> 0 <= t' < 2 ^ 53 ->
  is_binary64 random = true -> leb lit_0 random = true -> ltb random one = true ->
  is_binary64 random' = true -> leb lit_0 random' = true -> ltb random' one = true ->
  exists r r',
    0 <= r <= 999999 /\ 0 <= r' <= 999999
    /\ generateTransactionReference shortest_repr now random
       = ("TXN_" ++ printed t ++ "_" ++ printed r)%string
    /\ generateTransactionReference shortest_repr now' random'
       = ("TXN_" ++ printed t' ++ "_" ++ printed r')%string
    /\ (generateTransactionReference shortest_repr now random
        = generateTransactionReference shortest_repr now' random'
        <-> t = t' /\ r = r').
Proof.
  intros Hi Ht Hi' Ht' Hv H0 H1 Hv' H0' H1'.
  destruct (random_part shortest_repr random Hv H0 H1) as (r & Hr & _ & Htxt).
  destruct (random_part shortest_repr random' Hv' H0' H1') as (r' & Hr' & _ & Htxt').
  exists r, r'.
  assert (E : generateTransactionReference shortest_repr now random
              = ("TXN_" ++ printed t ++ "_" ++ printed r)%string).
  { unfold generateTransactionReference.
    rewrite (timestamp_text shortest_repr now t Hi Ht), Htxt. reflexivity. }
  assert (E' : generateTransactionReference shortest_repr now' random'
               = ("TXN_" ++ printed t' ++ "_" ++ printed r')%string).
  { unfold generateTransactionReference.
    rewrite (timestamp_text shortest_repr now' t' Hi' Ht'), Htxt'. reflexivity. }
  split; [exact Hr | ]. split; [exact Hr' | ].
  split; [exact E | ]. split; [exact E' | ].
  rewrite E, E'. split.
  - intros H. apply reference_text_inj in H; lia.
  - intros [-> ->]. reflexivity.
Qed.

(** Two payments in one millisecond, with the draws 0.123456789 and
    0.1234567. *)
Lemma references_collide_only_on_equal_parts_witness :
  exists r r',
    0 <= r <= 999999 /\ 0 <= r' <= 999999
    /\ generateTransactionReference no_repr (of_Z 1703875200000)
         (decimal 123456789 9)
       = ("TXN_1703875200000_" ++ printed r)%string
    /\ generateTransactionReference no_repr (of_Z 1703875200000)
         (decimal 1234567 7)
       = ("TXN_1703875200000_" ++ printed r')%string
    /\ (generateTransactionReference no_repr (of_Z 1703875200000)
          (decimal 123456789 9)
        = generateTransactionReference no_repr (of_Z 1703875200000)
            (decimal 1234567 7)
        <-> 1703875200000 = 1703875200000 /\ r = r').
Proof.
  apply (references_collide_only_on_equal_parts no_repr
           (of_Z 1703875200000) (of_Z 1703875200000)
           (decimal 123456789 9) (decimal 1234567 7)
           1703875200000 1703875200000);
    try reflexivity; lia.
Defined.

End TextFacts.

(* ================================================================== *)
(** ** Agreement with the kernel's binary64 arithmetic *)
(* ================================================================== *)

(** The prover's primitive floats are hardware binary64 values, as the
    Numbers of a JavaScript engine are.  On the computations behind the
    examples above, the specification-level operations used in this file
    and the primitive ones give the same values, and a decimal literal of
    the source denotes the Number that [decimal] builds. *)
Module KernelFloats.
Import PrimFloat JS Service.

#[warnings="-inexact-float"]
Lemma literal_999999_99 : FloatOps.Prim2SF 999999.99%float = lit_999999_99.
Proof. vm_compute. reflexivity. Qed.

#[warnings="-inexact-float"]
Lemma literal_10_03 : FloatOps.Prim2SF 10.03%float = decimal 1003 2.
Proof. vm_compute. reflexivity. Qed.

#[warnings="-inexact-float"]
Lemma literal_19_99 : FloatOps.Prim2SF 19.99%float = decimal 1999 2.
Proof. vm_compute. reflexivity. Qed.

#[warnings="-inexact-float"]
Lemma literal_10_005 : FloatOps.Prim2SF 10.005%float = decimal 10005 3.
Proof. vm_compute. reflexivity. Qed.

#[warnings="-inexact-float"]
Lemma product_10_03 :
  FloatOps.Prim2SF (10.03 * 100)%float = mul (decimal 1003 2) lit_100.
Proof. vm_compute. reflexivity. Qed.

#[warnings="-inexact-float"]
Lemma product_19_99 :
  FloatOps.Prim2SF (19.99 * 100)%float = mul (decimal 1999 2) lit_100.
Proof. vm_compute. reflexivity. Qed.

Lemma quotient_product_large :
  FloatOps.Prim2SF (3518437208883202 / 100 * 100)%float
  = mul (koboToNaira (of_Z 3518437208883202)) lit_100.
Proof. vm_compute. reflexivity. Qed.

#[warnings="-inexact-float"]
Lemma largest_draw :
  FloatOps.Prim2SF (0.99999999999999989 * 1000000)%float
  = mul (S754_finite false 9007199254740991 (-53)) lit_1000000.
Proof. vm_compute. reflexivity. Qed.

End KernelFloats.
